(** * Chatbot_AI: the RAG ingestion pipeline and the LLM router

    A shallow embedding of [backend/app.py], [backend/rag_engine.py] and the
    upload preparation of [pages/3_Database_Manager.py], followed by the
    properties of the specification that were settled against it.

    Conventions of the embedding.
    - A Python [str] is a [string]: the UTF-8 encoding of its code points.
      Concatenation, equality and the substring, prefix and suffix tests are
      the same on code points and on their encodings.  [strip] removes the
      encodings of the code points for which [str.isspace()] holds.  [lower]
      maps every code point whose lower case contains an ASCII character as
      [str.lower()] does, and leaves the others alone, which [str.lower()]
      maps to non-ASCII code points: the two agree wherever the result is
      searched for, or compared with, ASCII text.  Its one other use is the
      suffix of a temporary file, whose name is abstract here in any case
      (a running number stands for the random part).
    - A call that may raise returns [Exc A]: [inl e] carries [str(e)] of the
      exception, [inr a] the value.
    - Third-party collaborators (the OpenAI and Gemini clients, the Chroma
      index, the document loaders, the text splitter, the zip reader, the
      clock) are [Variable]s of the sections that use them.
    - Logging is not modelled. *)

From Stdlib Require Import String Ascii List Bool Arith NArith ZArith QArith Lia.
From Stdlib Require Import Numbers.DecimalString.
Import ListNotations.

Close Scope Q_scope.
Close Scope Z_scope.
Open Scope nat_scope.
Open Scope string_scope.

Definition Exc (A : Type) : Type := (string + A)%type.

(* ================================================================= *)
(** ** Python string primitives *)

Module PyStr.

Definition LF : string := String (ascii_of_nat 10) "".

Definition byte (n : nat) : ascii := ascii_of_nat n.

(** The UTF-8 encoding of a code point. *)
Definition utf8 (cp : N) : string :=
  if (cp <? 128)%N then String (ascii_of_N cp) ""
  else if (cp <? 2048)%N then
    String (ascii_of_N (192 + cp / 64))
      (String (ascii_of_N (128 + cp mod 64)) "")
  else if (cp <? 65536)%N then
    String (ascii_of_N (224 + cp / 4096))
      (String (ascii_of_N (128 + (cp / 64) mod 64))
         (String (ascii_of_N (128 + cp mod 64)) ""))
  else
    String (ascii_of_N (240 + cp / 262144))
      (String (ascii_of_N (128 + (cp / 4096) mod 64))
         (String (ascii_of_N (128 + (cp / 64) mod 64))
            (String (ascii_of_N (128 + cp mod 64)) ""))).

(** [c.lower()] on one ASCII code: 'A'..'Z' move to 'a'..'z'. *)
Definition lower_char (c : ascii) : ascii :=
  let n := nat_of_ascii c in
  if (65 <=? n)%nat && (n <=? 90)%nat then ascii_of_nat (n + 32) else c.

(** U+212A KELVIN SIGN, whose lower case is "k". *)
Definition kelvin_sign : string :=
  String (byte 226) (String (byte 132) (String (byte 170) "")).

(** U+0130 LATIN CAPITAL LETTER I WITH DOT ABOVE, whose lower case is "i"
    followed by U+0307 COMBINING DOT ABOVE. *)
Definition capital_dotted_i : string := String (byte 196) (String (byte 176) "").

Definition combining_dot : string := String (byte 204) (String (byte 135) "").

Definition is_kelvin (a b c : ascii) : bool :=
  Ascii.eqb a (byte 226) && Ascii.eqb b (byte 132) && Ascii.eqb c (byte 170).

Definition is_dotted_i (a b : ascii) : bool :=
  Ascii.eqb a (byte 196) && Ascii.eqb b (byte 176).

(** [s.lower()], exact on every code point whose lower case contains an
    ASCII character: the capitals 'A'..'Z', U+212A and U+0130.  No other
    code point has such a lower case, and those are left as they are. *)
Fixpoint lower (s : string) : string :=
  match s with
  | "" => ""
  | String a s1 =>
      let plain := String (lower_char a) (lower s1) in
      match s1 with
      | "" => plain
      | String b s2 =>
          if is_dotted_i a b then
            String "i" (String (byte 204) (String (byte 135) (lower s2)))
          else
            match s2 with
            | "" => plain
            | String c s3 =>
                if is_kelvin a b c then String "k" (lower s3) else plain
            end
      end
  end.

(** [s.startswith(p)] *)
Fixpoint startswith (s p : string) {struct p} : bool :=
  match p, s with
  | "", _ => true
  | String _ _, "" => false
  | String a p', String b s' => Ascii.eqb a b && startswith s' p'
  end.

(** [sub in s] *)
Fixpoint contains (sub s : string) : bool :=
  startswith s sub ||
  match s with
  | "" => false
  | String _ s' => contains sub s'
  end.

(** [s.endswith(suffix)] *)
Fixpoint endswith (s suffix : string) : bool :=
  String.eqb s suffix ||
  match s with
  | "" => false
  | String _ s' => endswith s' suffix
  end.

Definition bytes1 (a : nat) : string := String (byte a) "".
Definition bytes2 (a b : nat) : string := String (byte a) (bytes1 b).
Definition bytes3 (a b c : nat) : string := String (byte a) (bytes2 b c).

(** The encodings of the code points [c] with [c.isspace()], which
    [str.strip()] removes: U+0009-000D, U+001C-0020, U+0085, U+00A0, U+1680,
    U+2000-200A, U+2028, U+2029, U+202F, U+205F and U+3000. *)
Definition space_units : list string :=
  (map bytes1 [9; 10; 11; 12; 13; 28; 29; 30; 31; 32]
   ++ [bytes2 194 133; bytes2 194 160; bytes3 225 154 128]
   ++ map (bytes3 226 128)
        [128; 129; 130; 131; 132; 133; 134; 135; 136; 137; 138; 168; 169; 175]
   ++ [bytes3 226 129 159; bytes3 227 128 128])%list.

Definition is_space_unit (t : string) : bool :=
  existsb (String.eqb t) space_units.

(** [s.lstrip()]: the code point at the head is one, two or three bytes. *)
Fixpoint lstrip (s : string) : string :=
  match s with
  | "" => ""
  | String a s1 =>
      if is_space_unit (String a "") then lstrip s1
      else
        match s1 with
        | "" => s
        | String b s2 =>
            if is_space_unit (String a (String b "")) then lstrip s2
            else
              match s2 with
              | "" => s
              | String c s3 =>
                  if is_space_unit (String a (String b (String c "")))
                  then lstrip s3
                  else s
              end
        end
  end.

(** [s.rstrip()]: going back from the end, what is left of the tail is
    dropped each time it is one white code point. *)
Fixpoint rstrip (s : string) : string :=
  match s with
  | "" => ""
  | String c s' =>
      let t := String c (rstrip s') in
      if is_space_unit t then "" else t
  end.

(** [s.strip()] *)
Definition strip (s : string) : string := rstrip (lstrip s).

(** Truth value of a [str]. *)
Definition truthy (s : string) : bool := negb (String.eqb s "").

(** Truth value of an [Optional[str]]. *)
Definition truthy_opt (o : option string) : bool :=
  match o with
  | Some s => truthy s
  | None => false
  end.

(** [f"{o}"] for an [Optional[str]]. *)
Definition format_opt (o : option string) : string :=
  match o with
  | Some s => s
  | None => "None"
  end.

(** [f"{n}"] for a non-negative [int]. *)
Definition format_nat (n : nat) : string :=
  NilEmpty.string_of_uint (Nat.to_uint n).

(** [sep.join(parts)] *)
Definition join (sep : string) (parts : list string) : string :=
  String.concat sep parts.

(** [a or b] on [Optional[str]] operands, with [b] a plain [str]. *)
Definition or_else (a : option string) (b : string) : string :=
  match a with
  | Some s => if truthy s then s else b
  | None => b
  end.

(** Specification side: letter case. *)
Definition is_lower_letter (c : ascii) : bool :=
  let n := nat_of_ascii c in (97 <=? n)%nat && (n <=? 122)%nat.

Definition upper_char (c : ascii) : ascii :=
  if is_lower_letter c then ascii_of_nat (nat_of_ascii c - 32) else c.

(** Specification side: a fragment of text reads as a keyword written in
    lower case, letter case aside: character for character, each character
    of the keyword stands as itself or, for a letter, as its capital; the
    Kelvin sign, a capital K to Unicode, stands for "k". *)
Inductive ci_match : string -> string -> Prop :=
| ci_nil : ci_match "" ""
| ci_same (c : ascii) (m k : string) :
    ci_match m k -> ci_match (String c m) (String c k)
| ci_upper (c : ascii) (m k : string) :
    is_lower_letter c = true ->
    ci_match m k -> ci_match (String (upper_char c) m) (String c k)
| ci_kelvin (m k : string) :
    ci_match m k -> ci_match (kelvin_sign ++ m) (String "k" k).

(** Specification side: a text mentions a keyword, letter case aside, when
    some fragment of the text reads as the keyword. *)
Definition mentions (keyword text : string) : Prop :=
  exists pre mid post,
    text = pre ++ mid ++ post /\ ci_match mid keyword.

(** The keywords the equivalence below is for: not empty, made of ASCII
    characters other than capitals, and not ending in "i". *)
Definition plain (c : ascii) : bool :=
  let n := nat_of_ascii c in
  (n <? 128)%nat && negb ((65 <=? n)%nat && (n <=? 90)%nat).

Fixpoint plain_tail (k : string) : bool :=
  match k with
  | "" => true
  | String c "" => plain c && negb (Ascii.eqb c "i")
  | String c k' => plain c && plain_tail k'
  end.

Definition keyword_ok (k : string) : bool :=
  negb (String.eqb k "") && plain_tail k.

(** A text starts on a code point boundary as far as [lower] is concerned:
    its first byte is none of the bytes that end the Kelvin sign or
    U+0130. *)
Definition clean_start (x : string) : Prop :=
  match x with
  | "" => True
  | String f _ =>
      Ascii.eqb f (byte 132) = false /\ Ascii.eqb f (byte 170) = false
      /\ Ascii.eqb f (byte 176) = false
  end.

End PyStr.

(* ================================================================= *)
(** ** backend/config.py *)

Module settings.
Definition deepseek_base_url : string := "https://api.deepseek.com".
Definition deepseek_model : string := "deepseek-chat".
Definition openai_base_url : string := "https://api.openai.com/v1".
Definition openai_model : string := "gpt-3.5-turbo".
Definition gemini_model : string := "gemini-pro".
Definition embedding_model : string := "sentence-transformers/all-MiniLM-L6-v2".
End settings.

(* ================================================================= *)
(** ** backend/rag_engine.py: retrieval *)

Module Retrieval.
Import PyStr.

(** A langchain [Document]: its text and the [source] entry of its
    metadata. *)
Record Document : Type := mkDocument {
  page_content : string;
  source : string
}.

(** Specification side: the texts in the order given, each one after the
    first preceded by a blank line. *)
Definition blank_line_joined (texts : list string) : string :=
  match texts with
  | [] => ""
  | t :: rest => t ++ String.concat "" (map (fun x => LF ++ LF ++ x) rest)
  end.

Section WithIndex.
(** [load_chroma_db(persist_directory)] followed by
    [db.similarity_search(question, k=k)]; [inl] when either raises. *)
Variable similarity_search : string -> string -> nat -> Exc (list Document).

Definition query_rag (question persist_directory : string) (k : nat)
  : Exc string :=
  match similarity_search persist_directory question k with
  | inl e => inl e
  | inr results => inr (join (LF ++ LF) (map page_content results))
  end.
End WithIndex.

End Retrieval.

(* ================================================================= *)
(** ** backend/app.py *)

Module App.
Import PyStr.

Record Message : Type := mkMessage {
  role : string;
  content : string
}.

Record LLMRequest : Type := mkLLMRequest {
  model_name : string;
  api_key : string;
  prompt : string;
  system_message : option string;
  chat_history : list Message;
  use_rag : bool;
  db_path : option string;
  temperature : option Q;
  max_tokens : option Z
}.

Record LLMResponse : Type := mkLLMResponse {
  response : string;
  success : bool;
  error_message : option string
}.

(** Specification side: the shape every returned response must have. *)
Definition well_formed (r : LLMResponse) : Prop :=
  (success r = false ->
   response r = "" /\ exists m, error_message r = Some m /\ m <> "")
  /\ (success r = true -> error_message r = None).

(** What an adapter hands back: [(text, ok, err)]. *)
Definition AdapterResult : Type := (option string * bool * option string)%type.

Definition parse_api_error (provider error : string) : string :=
  let err_msg := lower error in
  if contains "401" err_msg || contains "invalid api key" err_msg
     || contains "authentication" err_msg
  then "❌ Invalid API key. Please check your " ++ provider ++ " API key."
  else if contains "quota" err_msg || contains "limit" err_msg
  then "⚠️ " ++ provider ++ " API quota exceeded. Please check your account limits."
  else "❌ " ++ provider ++ " API error: " ++ error.

(** Specification side: the two keyword classes of the error taxonomy. *)
Definition auth_error (error : string) : Prop :=
  mentions "401" error \/ mentions "invalid api key" error
  \/ mentions "authentication" error.

Definition quota_error (error : string) : Prop :=
  mentions "quota" error \/ mentions "limit" error.

Section WithProviders.
(** [openai.OpenAI(api_key, base_url).chat.completions.create(model,
    messages, max_tokens, temperature)] followed by
    [response.choices[0].message.content]. *)
Variable chat_completions_create :
  string -> option string -> string -> list Message -> option Z -> option Q ->
  Exc (option string).

(** [genai.configure(api_key)], [GenerativeModel(model)
    .generate_content(full_prompt)] and [response.text]. *)
Variable generate_content : string -> string -> string -> Exc string.

(** [query_rag] of the retrieval engine, with its default [k]. *)
Variable query_rag : string -> string -> Exc string.

Definition build_messages (prompt system_message : string)
    (chat_history : list Message) : list Message :=
  ((if truthy system_message then [mkMessage "system" system_message] else [])
   ++ chat_history
   ++ [mkMessage "user" prompt])%list.

Definition get_deepseek_llm (api_key prompt system_message : string)
    (chat_history : list Message) (temperature : option Q)
    (max_tokens : option Z) : AdapterResult :=
  match chat_completions_create api_key (Some settings.deepseek_base_url)
          settings.deepseek_model
          (build_messages prompt system_message chat_history)
          max_tokens temperature with
  | inr content => (content, true, None)
  | inl e => (None, false, Some (parse_api_error "DeepSeek" e))
  end.

Definition gemini_turn (msg : Message) : string :=
  (if String.eqb (role msg) "user" then "Human" else "Assistant")
  ++ ": " ++ content msg ++ LF.

Definition gemini_full_prompt (prompt system_message : string)
    (chat_history : list Message) : string :=
  (if truthy system_message
   then "System: " ++ system_message ++ LF ++ LF else "")
  ++ String.concat "" (map gemini_turn chat_history)
  ++ "Human: " ++ prompt ++ LF ++ "Assistant:".

Definition get_gemini_llm (api_key prompt system_message : string)
    (chat_history : list Message) : AdapterResult :=
  match generate_content api_key settings.gemini_model
          (gemini_full_prompt prompt system_message chat_history) with
  | inr text =>
      if truthy text then (Some text, true, None)
      else (None, false, Some "⚠️ Gemini returned an empty response.")
  | inl e => (None, false, Some (parse_api_error "Gemini" e))
  end.

Definition get_openai_llm (api_key prompt system_message : string)
    (chat_history : list Message) (temperature : option Q)
    (max_tokens : option Z) : AdapterResult :=
  match chat_completions_create api_key None settings.openai_model
          (build_messages prompt system_message chat_history)
          max_tokens temperature with
  | inr content => (content, true, None)
  | inl e => (None, false, Some (parse_api_error "OpenAI" e))
  end.

Definition safe_instruction : string :=
  "If the question is unclear, nonsensical, or unrelated to the topic, "
  ++ "respond politely with an apology or request clarification. "
  ++ "If RAG context is empty, explain that you couldn’t find relevant info "
  ++ "instead of repeating old answers.".

(** The tail of [query_llm] once an adapter has answered. *)
Definition finish (result : AdapterResult) : LLMResponse :=
  let '(text, ok, err) := result in
  let failure :=
    mkLLMResponse "" false
      (Some (or_else err "No valid response generated.")) in
  match text with
  | Some t => if ok && truthy t then mkLLMResponse t true None else failure
  | None => failure
  end.

(** "Route to correct LLM": the dispatch on [request.model_name] with the
    prompt and system message computed before it.  Every adapter catches
    its own exceptions, so the handler that answers with status 500 is
    never entered by the modelled calls. *)
Definition route (request : LLMRequest) (prompt system_message : string)
  : LLMResponse :=
  if String.eqb (model_name request) "DeepSeek" then
    finish (get_deepseek_llm (api_key request) prompt system_message
              (chat_history request) (temperature request)
              (max_tokens request))
  else if String.eqb (model_name request) "Gemini" then
    finish (get_gemini_llm (api_key request) prompt system_message
              (chat_history request))
  else if String.eqb (model_name request) "ChatGPT" then
    finish (get_openai_llm (api_key request) prompt system_message
              (chat_history request) (temperature request)
              (max_tokens request))
  else mkLLMResponse "" false
         (Some ("❌ Unknown model: " ++ model_name request)).

(** "Apply RAG Context": the prompt to route with, or the response of the
    retrieval failure. *)
Definition apply_rag (request : LLMRequest) (prompt : string)
  : LLMResponse + string :=
  if use_rag request then
    if negb (truthy_opt (db_path request)) then inr prompt
    else
      match query_rag prompt (format_opt (db_path request)) with
      | inr context =>
          inr ("Use the following context to answer:" ++ LF ++ LF
               ++ context ++ LF ++ LF ++ "Question: " ++ prompt)
      | inl e =>
          inl (mkLLMResponse "" false
                 (Some ("⚠️ RAG Error: Could not retrieve context. Details: "
                        ++ e)))
      end
  else inr prompt.

Definition query_llm (request : LLMRequest) : LLMResponse :=
  if negb (truthy (strip (api_key request))) then
    mkLLMResponse "" false (Some "❌ API key is required.")
  else if negb (truthy (strip (prompt request))) then
    mkLLMResponse "" false (Some "❌ Prompt cannot be empty.")
  else
    let prompt := strip (prompt request) in
    let system_message :=
      format_opt (system_message request) ++ LF ++ LF ++ safe_instruction in
    match apply_rag request prompt with
    | inl failure => failure
    | inr prompt => route request prompt system_message
    end.

(** Specification side: the request passes the two validation checks. *)
Definition valid (request : LLMRequest) : Prop :=
  strip (api_key request) <> "" /\ strip (prompt request) <> "".

(** The system message every adapter receives for the request. *)
Definition system_for (request : LLMRequest) : string :=
  format_opt (system_message request) ++ LF ++ LF ++ safe_instruction.

(** Specification side: the endpoint answers the request with what the
    adapter of the request's model returns when it is called with the given
    prompt (and the request's key, history and sampling settings). *)
Definition adapter_receives (request : LLMRequest) (prompt : string)
  : Prop :=
  (model_name request = "DeepSeek" ->
   query_llm request
   = finish (get_deepseek_llm (api_key request) prompt (system_for request)
               (chat_history request) (temperature request)
               (max_tokens request)))
  /\ (model_name request = "Gemini" ->
      query_llm request
      = finish (get_gemini_llm (api_key request) prompt (system_for request)
                  (chat_history request)))
  /\ (model_name request = "ChatGPT" ->
      query_llm request
      = finish (get_openai_llm (api_key request) prompt (system_for request)
                  (chat_history request) (temperature request)
                  (max_tokens request))).

(** Specification side: the provider call made for the request with the
    given prompt succeeded and produced no text. *)
Definition provider_returned_empty (request : LLMRequest) (prompt : string)
  : Prop :=
  (model_name request = "DeepSeek" /\
   exists content,
     chat_completions_create (api_key request)
       (Some settings.deepseek_base_url) settings.deepseek_model
       (build_messages prompt (system_for request) (chat_history request))
       (max_tokens request) (temperature request) = inr content
     /\ truthy_opt content = false)
  \/ (model_name request = "Gemini" /\
      generate_content (api_key request) settings.gemini_model
        (gemini_full_prompt prompt (system_for request)
           (chat_history request)) = inr "")
  \/ (model_name request = "ChatGPT" /\
      exists content,
        chat_completions_create (api_key request) None
          settings.openai_model
          (build_messages prompt (system_for request)
             (chat_history request))
          (max_tokens request) (temperature request) = inr content
        /\ truthy_opt content = false).

End WithProviders.

End App.

(* ================================================================= *)
(** ** backend/rag_engine.py: ingestion *)

Module Ingestion.
Import PyStr Retrieval.

(** An uploaded file object: [file.name] and the bytes of [file.read()]. *)
Record UploadedFile : Type := mkUploadedFile {
  name : string;
  data : string
}.

(** The record dumped to [rag_metadata.json]. *)
Record Metadata : Type := mkMetadata {
  files : list string;
  created_at : string;
  total_chunks : nat
}.

(** An entry of [tempfile.gettempdir()]; [removable] tells whether
    [os.remove] succeeds on it. *)
Record TmpEntry : Type := mkTmpEntry {
  entry_name : string;
  removable : bool
}.

(** The streamlit calls of the run.  [batch_update] stands for lines 84-91:
    the numbers shown are floats in the program and exact rationals here. *)
Inductive UiEvent : Type :=
| st_error (msg : string)
| st_warning (msg : string)
| progress_start
| batch_update (processed total : nat) (fraction elapsed remaining : Q)
| progress_done.

(** What the run reads and writes outside its own variables. *)
Record World : Type := mkWorld {
  index : list Document;          (* the Chroma collection of the store *)
  rag_metadata : option Metadata; (* rag_metadata.json of the store *)
  tmpdir : list TmpEntry;         (* the system temporary directory *)
  tmp_seq : nat;                  (* names handed out so far *)
  ticks : nat;                    (* clock readings taken so far *)
  ui : list UiEvent               (* oldest first *)
}.

Definition emit (ev : UiEvent) (w : World) : World :=
  mkWorld (index w) (rag_metadata w) (tmpdir w) (tmp_seq w) (ticks w)
          (ui w ++ [ev])%list.

Definition add_to_index (batch : list Document) (w : World) : World :=
  mkWorld (index w ++ batch)%list (rag_metadata w) (tmpdir w) (tmp_seq w)
          (ticks w) (ui w).

Definition write_metadata (meta : Metadata) (w : World) : World :=
  mkWorld (index w) (Some meta) (tmpdir w) (tmp_seq w) (ticks w) (ui w).

Definition gettempdir : string := "/tmp".

(** [tempfile.NamedTemporaryFile(delete=False, suffix=suffix)] with the
    upload written to it: a new regular file, whose path is returned. *)
Definition NamedTemporaryFile (suffix : string) (w : World) : string * World :=
  let fname := "tmp" ++ format_nat (tmp_seq w) ++ suffix in
  (gettempdir ++ "/" ++ fname,
   mkWorld (index w) (rag_metadata w)
           (tmpdir w ++ [mkTmpEntry fname true])%list (S (tmp_seq w))
           (ticks w) (ui w)).

(** [glob.glob(gettempdir() + "/*")] skips names with a leading dot. *)
Definition globbed (e : TmpEntry) : bool := negb (startswith (entry_name e) ".").

(** "Clean temp files": [os.remove] on every globbed entry, failures
    swallowed. *)
Definition clean_temp_files (w : World) : World :=
  mkWorld (index w) (rag_metadata w)
          (filter (fun e => negb (globbed e && removable e)) (tmpdir w))
          (tmp_seq w) (ticks w) (ui w).

(** [os.path.basename] *)
Fixpoint basename (p : string) : string :=
  match p with
  | "" => ""
  | String _ p' => if contains "/" p then basename p' else p
  end.

Fixpoint skip_dots (s : string) : string :=
  match s with
  | String "." s' => skip_dots s'
  | _ => s
  end.

Fixpoint from_last_dot (s : string) : option string :=
  match s with
  | "" => None
  | String c s' =>
      match from_last_dot s' with
      | Some e => Some e
      | None => if Ascii.eqb c "." then Some s else None
      end
  end.

(** [os.path.splitext(p)[1]]: from the last dot of the base name, unless
    only dots precede it. *)
Definition splitext_ext (p : string) : string :=
  match from_last_dot (skip_dots (basename p)) with
  | Some e => e
  | None => ""
  end.

(** [range(start, stop, step)] for a positive step. *)
Fixpoint range_from (fuel start stop step : nat) : list nat :=
  match fuel with
  | O => []
  | S fuel' =>
      if (start <? stop)%nat
      then start :: range_from fuel' (start + step) stop step
      else []
  end.

Definition range (start stop step : nat) : list nat :=
  range_from stop start stop step.

(** [l[i:j]] *)
Definition slice {A : Type} (l : list A) (i j : nat) : list A :=
  firstn (j - i) (skipn i l).

(** [a / b] on numbers: raises on a zero divisor. *)
Definition truediv (a b : Q) : Exc Q :=
  if Qeq_bool b 0 then inl "ZeroDivisionError: division by zero"
  else inr (a / b)%Q.

Definition Qnat (n : nat) : Q := inject_Z (Z.of_nat n).

Definition batch_size : nat := 30.

(** Specification side: what a progress update must satisfy.  At least one
    chunk is processed, and the estimate is the elapsed time multiplied by
    remaining chunks over processed chunks. *)
Definition update_ok (total_chunks : nat) (ev : UiEvent) : Prop :=
  match ev with
  | batch_update processed total fraction elapsed remaining =>
      1 <= processed /\ processed <= total /\ total = total_chunks
      /\ (fraction == Qnat processed / Qnat total)%Q
      /\ (remaining == elapsed * (Qnat (total - processed) / Qnat processed))%Q
  | _ => True
  end.


Definition is_batch_update (ev : UiEvent) : bool :=
  match ev with
  | batch_update _ _ _ _ _ => true
  | _ => false
  end.

(** What the first loop keeps invariant, turn by turn: the running count
    is the length of [all_docs], the store is untouched, one regular
    temporary file exists per file seen, and only errors are shown. *)
Record load_inv (files : list UploadedFile) (w : World)
    (docs : list Document) (n : nat) (w' : World) : Prop := {
  inv_total : n = length docs;
  inv_index : index w' = index w;
  inv_meta : rag_metadata w' = rag_metadata w;
  inv_ticks : ticks w' = ticks w;
  inv_tmp : exists created,
      tmpdir w' = (tmpdir w ++ created)%list
      /\ length created = length files
      /\ Forall (fun e => globbed e = true /\ removable e = true) created;
  inv_ui : exists errs,
      ui w' = (ui w ++ errs)%list
      /\ Forall (fun ev => is_batch_update ev = false) errs
}.

Section WithCollaborators.
(** [PyPDFLoader(path).load()] and [TextLoader(path).load()] on a
    temporary file with the given bytes. *)
Variable PyPDFLoader_load : string -> string -> Exc (list Document).
Variable TextLoader_load : string -> string -> Exc (list Document).
(** [RecursiveCharacterTextSplitter(chunk_size=1000, chunk_overlap=200)
    .split_documents] *)
Variable split_documents : list Document -> list Document.
(** [Some e] when [db.add_documents(batch)] raises [e]; otherwise the
    batch is appended to the collection. *)
Variable add_documents_raises : list Document -> option string.
(** The n-th reading of [time.time()], and [time.strftime] at it. *)
Variable time_time : nat -> Q.
Variable strftime : nat -> string.

Definition read_clock (w : World) : Q * World :=
  (time_time (ticks w),
   mkWorld (index w) (rag_metadata w) (tmpdir w) (tmp_seq w)
           (S (ticks w)) (ui w)).

(** One turn of the loop over [files] (lines 52-68). *)
Definition load_file (acc : list Document * nat * World) (file : UploadedFile)
  : list Document * nat * World :=
  let '(all_docs, total_chunks, w) := acc in
  let file_ext := lower (splitext_ext (name file)) in
  let '(tmp_file_path, w1) := NamedTemporaryFile file_ext w in
  let loaded :=
    if String.eqb file_ext ".pdf"
    then PyPDFLoader_load tmp_file_path (data file)
    else TextLoader_load tmp_file_path (data file) in
  match loaded with
  | inl e =>
      (all_docs, total_chunks,
       emit (st_error ("❌ Failed to process " ++ name file ++ ": " ++ e)) w1)
  | inr docs =>
      let split_docs := split_documents docs in
      ((all_docs ++ split_docs)%list, total_chunks + length split_docs, w1)
  end.

Definition load_files (files : list UploadedFile) (w : World)
  : list Document * nat * World :=
  fold_left load_file files ([], 0, w).

(** The chunks of the documents that loaded, as the first loop leaves
    them in [all_docs]. *)
Definition loaded_chunks (files : list UploadedFile) (w : World)
  : list Document :=
  fst (fst (load_files files w)).

(** The loop over [range(0, len(all_docs), batch_size)] (lines 79-92);
    returns [processed_chunks]. *)
Fixpoint embed_batches (starts : list nat) (all_docs : list Document)
    (total_chunks processed_chunks : nat) (start : Q) (w : World)
  : Exc nat * World :=
  match starts with
  | [] => (inr processed_chunks, w)
  | i :: starts' =>
      let batch := slice all_docs i (i + batch_size) in
      match add_documents_raises batch with
      | Some e => (inl e, w)
      | None =>
          let w1 := add_to_index batch w in
          let processed_chunks := processed_chunks + length batch in
          match truediv (Qnat processed_chunks) (Qnat total_chunks) with
          | inl e => (inl e, w1)
          | inr fraction =>
              let '(now, w2) := read_clock w1 in
              let elapsed := (now - start)%Q in
              match truediv elapsed (Qnat processed_chunks) with
              | inl e => (inl e, w2)
              | inr per_chunk =>
                  let remaining :=
                    (per_chunk * (Qnat total_chunks - Qnat processed_chunks))%Q in
                  embed_batches starts' all_docs total_chunks processed_chunks
                    start
                    (emit (batch_update processed_chunks total_chunks
                             fraction elapsed remaining) w2)
              end
          end
      end
  end.

Definition process_and_add_files (files : list UploadedFile) (w : World)
  : Exc string * World :=
  let '(all_docs, total_chunks, w1) := load_files files w in
  if (total_chunks =? 0)%nat then
    (inr "No chunks to embed.",
     emit (st_warning "⚠️ No valid text found in uploaded documents.") w1)
  else
    let '(start, w2) := read_clock (emit progress_start w1) in
    match embed_batches (range 0 (length all_docs) batch_size) all_docs
            total_chunks 0 start w2 with
    | (inl e, w3) => (inl e, w3)
    | (inr _, w3) =>
        let w4 := emit progress_done w3 in
        let meta :=
          mkMetadata (map name files) (strftime (ticks w4)) total_chunks in
        (inr ("✅ Added " ++ format_nat total_chunks
              ++ " chunks to the vector database."),
         clean_temp_files (write_metadata meta w4))
    end.

(** The names of the files whose loading succeeded, in upload order:
    the members "accepted for embedding" of the specification. *)
Definition accepted_filenames (files : list UploadedFile) (w : World)
  : list string :=
  fst
    (fold_left
       (fun (acc : list string * World) file =>
          let '(names, w0) := acc in
          let file_ext := lower (splitext_ext (name file)) in
          let '(tmp_file_path, w1) := NamedTemporaryFile file_ext w0 in
          let loaded :=
            if String.eqb file_ext ".pdf"
            then PyPDFLoader_load tmp_file_path (data file)
            else TextLoader_load tmp_file_path (data file) in
          match loaded with
          | inl _ => (names, w1)
          | inr _ => ((names ++ [name file])%list, w1)
          end)
       files ([], w)).

End WithCollaborators.

End Ingestion.

(* ================================================================= *)
(** ** The chunker *)

Module Chunker.
Import Retrieval.

Section Windows.
Context {A : Type}.

(** Modelled from the spec: the chunker of the program is langchain's
    [RecursiveCharacterTextSplitter], whose code is not among the sources
    of the repository.  The specification describes it as splitting by
    character offset into chunks of a fixed target size, consecutive
    chunks overlapping by exactly the configured amount, the final chunk
    being the only one that may differ in length: a window of [size]
    characters that advances by [step = size - overlap] until it reaches
    the end of the text. *)
Fixpoint windows (fuel size step : nat) (text : list A) : list (list A) :=
  match fuel with
  | O => []
  | S fuel' =>
      firstn size text ::
      (if (length text <=? size)%nat then []
       else windows fuel' size step (skipn step text))
  end.

(** Modelled from the spec: [chunk(document, size, overlap)] of section
    4.2, which "must never produce zero chunks for a non-empty document";
    an empty text has no chunk. *)
Definition split_text (size overlap : nat) (text : list A) : list (list A) :=
  match text with
  | [] => []
  | _ :: _ => windows (length text) size (size - overlap) text
  end.

(** Concatenation of the chunks with the overlapping prefixes removed:
    the first chunk whole, every later one without its first [overlap]
    characters. *)
Definition reconstruct (overlap : nat) (chunks : list (list A)) : list A :=
  match chunks with
  | [] => []
  | c :: cs => c ++ concat (map (skipn overlap) cs)
  end.
End Windows.

(** The ceiling of [a / b] for a positive [b]. *)
Definition ceil_div (a b : Z) : Z := (- ((- a) / b))%Z.

(** The count of the specification: the ceiling of (L - O) / (S - O). *)
Definition chunk_count (L S O : nat) : Z :=
  ceil_div (Z.of_nat L - Z.of_nat O) (Z.of_nat S - Z.of_nat O).

Definition chunk_size : nat := 1000.
Definition chunk_overlap : nat := 200.

(** Modelled from the spec: [split_documents] chunks each document in turn
    and keeps its attribution. *)
Definition split_documents (docs : list Document) : list Document :=
  flat_map
    (fun d =>
       map (fun c => mkDocument (string_of_list_ascii c) (source d))
           (split_text chunk_size chunk_overlap
              (list_ascii_of_string (page_content d))))
    docs.

End Chunker.

(* ================================================================= *)
(** ** pages/3_Database_Manager.py: preparing the uploads *)

Module DatabaseManager.
Import PyStr Ingestion.

(** [member.lower().endswith((".pdf", ".txt"))] *)
Definition eligible (member : string) : bool :=
  endswith (lower member) ".pdf" || endswith (lower member) ".txt".

(** The loop over [zf.namelist()]: each member comes with the outcome of
    extracting it and reading it back; the first failure leaves the loop
    through the handler of the archive, keeping what was appended. *)
Fixpoint extract_members (members : list (string * Exc string))
  : list UploadedFile :=
  match members with
  | [] => []
  | (member, extracted) :: rest =>
      if eligible member then
        match extracted with
        | inr bytes => mkUploadedFile (basename member) bytes :: extract_members rest
        | inl _ => []
        end
      else extract_members rest
  end.

Section WithZip.
(** [zipfile.ZipFile] on the uploaded bytes: [inl] when the archive cannot
    be opened, otherwise its members in [namelist()] order. *)
Variable read_zip : string -> Exc (list (string * Exc string)).

Definition prepare (uploaded : UploadedFile) : list UploadedFile :=
  if endswith (lower (name uploaded)) ".zip" then
    match read_zip (data uploaded) with
    | inr members => extract_members members
    | inl _ => []
    end
  else [uploaded].

Definition files_for_embedding (uploaded_files : list UploadedFile)
  : list UploadedFile :=
  flat_map prepare uploaded_files.
End WithZip.

End DatabaseManager.

(* ================================================================= *)
(** ** Concrete collaborators for the worked examples *)

Module Demo.
Import PyStr Retrieval Ingestion.

Definition pdf_load (path bytes : string) : Exc (list Document) :=
  if startswith bytes "%PDF" then inr [mkDocument bytes path]
  else inl "invalid pdf header".

Definition text_load (path bytes : string) : Exc (list Document) :=
  inr [mkDocument bytes path].

Definition add_ok (batch : list Document) : option string := None.

Definition add_fails (batch : list Document) : option string :=
  Some "embedding backend unavailable".

Definition clock (n : nat) : Q := Qnat n.

Definition stamp (n : nat) : string := "2025-01-01 00:00:00".

Definition world0 : World := mkWorld [] None [] 0 0 [].

Definition ingest : list UploadedFile -> World -> Exc string * World :=
  process_and_add_files pdf_load text_load Chunker.split_documents add_ok
    clock stamp.

Definition ingest_failing : list UploadedFile -> World -> Exc string * World :=
  process_and_add_files pdf_load text_load Chunker.split_documents add_fails
    clock stamp.

(** An index that takes full batches only. *)
Definition add_full_only (batch : list Document) : option string :=
  if (length batch <? 30)%nat then Some "batch refused" else None.

Definition ingest_picky : list UploadedFile -> World -> Exc string * World :=
  process_and_add_files pdf_load text_load Chunker.split_documents
    add_full_only clock stamp.

Fixpoint repeat_string (s : string) (n : nat) : string :=
  match n with
  | O => ""
  | S n' => s ++ repeat_string s n'
  end.

Definition search_nothing (dir question : string) (k : nat)
  : Exc (list Document) := inr [].

Definition search_two (dir question : string) (k : nat)
  : Exc (list Document) :=
  inr [mkDocument "first" "a.txt"; mkDocument "second" "b.txt"].

Definition completion_empty (key : string) (base : option string)
    (model : string) (messages : list App.Message) (max_tokens : option Z)
    (temperature : option Q) : Exc (option string) := inr (Some "").

Definition generate_empty (key model full_prompt : string) : Exc string :=
  inr "".

(** A chat provider that answers with the content of the last message it is
    sent, and a text provider that answers with the prompt it is sent. *)
Definition completion_echo (key : string) (base : option string)
    (model : string) (messages : list App.Message) (max_tokens : option Z)
    (temperature : option Q) : Exc (option string) :=
  inr (Some (App.content (last messages (App.mkMessage "user" "")))).

Definition generate_echo (key model full_prompt : string) : Exc string :=
  inr full_prompt.

Definition rag_fixed (question dir : string) : Exc string := inr "CTX".

Definition ask (model : string) (rag : bool) (db : option string)
  : App.LLMRequest :=
  App.mkLLMRequest model "sk-test" " What is RAG? "
    (Some "You are a helpful AI assistant.") [] rag db None None.

Definition text2500 : list ascii :=
  list_ascii_of_string (repeat_string "abcde" 500).

(** A pdf that does not load next to a text file that does. *)
Definition mixed_files : list UploadedFile :=
  [mkUploadedFile "bad.pdf" "oops"; mkUploadedFile "good.txt" "hello world"].

(** A text file without content. *)
Definition empty_files : list UploadedFile := [mkUploadedFile "empty.txt" ""].

Definition good_files : list UploadedFile :=
  [mkUploadedFile "good.txt" "hello world"].

(** A text of 25000 characters: 31 chunks, two batches. *)
Definition big_files : list UploadedFile :=
  [mkUploadedFile "big.txt" (repeat_string "0123456789" 2500)].

End Demo.

(* ================================================================= *)
(** ** The endpoint wired to the retrieval engine *)

Module Backend.
Import PyStr Retrieval.

(** The default [k] of [query_rag], which the endpoint does not override. *)
Definition default_k : nat := 3.

(** [query_llm] as [app.py] runs it: its [query_rag] is the one imported from
    [backend.rag_engine], called with the prompt and [request.db_path]. *)
Definition endpoint
    (chat_completions_create :
       string -> option string -> string -> list App.Message -> option Z ->
       option Q -> Exc (option string))
    (generate_content : string -> string -> string -> Exc string)
    (similarity_search : string -> string -> nat -> Exc (list Document))
    (request : App.LLMRequest) : App.LLMResponse :=
  App.query_llm chat_completions_create generate_content
    (fun question persist_directory =>
       query_rag similarity_search question persist_directory default_k)
    request.

(** The [query_rag] that [app.py] imports, as the endpoint calls it: with
    the prompt, [request.db_path] and the default [k]. *)
Definition imported_query_rag
    (similarity_search : string -> string -> nat -> Exc (list Document))
    (question persist_directory : string) : Exc string :=
  query_rag similarity_search question persist_directory default_k.

(** Specification side: the code points that are white space to Python. *)
Definition whitespace_code_points : list N :=
  [9; 10; 11; 12; 13; 28; 29; 30; 31; 32; 133; 160; 5760;
   8192; 8193; 8194; 8195; 8196; 8197; 8198; 8199; 8200; 8201; 8202;
   8232; 8233; 8239; 8287; 12288]%N.

(** Specification side: a text made of white space only (the empty text
    included). *)
Inductive blank : string -> Prop :=
| blank_nil : blank ""
| blank_cons (cp : N) (s : string) :
    In cp whitespace_code_points -> blank s -> blank (utf8 cp ++ s).

(** The request with other generation parameters. *)
Definition with_generation (request : App.LLMRequest) (temperature : option Q)
    (max_tokens : option Z) : App.LLMRequest :=
  App.mkLLMRequest (App.model_name request) (App.api_key request)
    (App.prompt request) (App.system_message request)
    (App.chat_history request) (App.use_rag request) (App.db_path request)
    temperature max_tokens.

End Backend.

(* ================================================================= *)
(** ** Notions for the ingestion run *)

Module IngestionNotions.
Import PyStr Retrieval Ingestion.

(** The path [NamedTemporaryFile] returns for the file numbered [seq]. *)
Definition tmp_path_for (seq : nat) (suffix : string) : string :=
  gettempdir ++ "/" ++ "tmp" ++ format_nat seq ++ suffix.

Section WithLoaders.
Variable PyPDFLoader_load : string -> string -> Exc (list Document).
Variable TextLoader_load : string -> string -> Exc (list Document).
Variable split_documents : list Document -> list Document.

(** Specification side: what one uploaded file, written to the temporary file
    numbered [seq], adds to [all_docs]: its chunks when it loads, nothing
    when its loader raises. *)
Definition file_chunks (numbered : nat * UploadedFile) : list Document :=
  let '(seq, file) := numbered in
  let file_ext := lower (splitext_ext (name file)) in
  let path := tmp_path_for seq file_ext in
  match (if String.eqb file_ext ".pdf"
         then PyPDFLoader_load path (data file)
         else TextLoader_load path (data file)) with
  | inl _ => []
  | inr docs => split_documents docs
  end.
End WithLoaders.

(** The processed counts shown by the updates of a run, oldest first. *)
Definition processed_counts (evs : list UiEvent) : list nat :=
  flat_map
    (fun ev =>
       match ev with
       | batch_update processed _ _ _ _ => [processed]
       | _ => []
       end)
    evs.

(** The batches the second loop hands to [db.add_documents]. *)
Definition batches (all_docs : list Document) : list (list Document) :=
  map (fun i => slice all_docs i (i + batch_size))
      (range 0 (length all_docs) batch_size).

End IngestionNotions.

(* ================================================================= *)
(** ** Chatbot.py: one run of the chat page *)

Module Chatbot.
Import PyStr.

(** [st.session_state], the keys the chat page reads and writes.  A chat
    entry is [(role, message)]; the message of an assistant entry is what
    [result.get("error_message", ...)] gave, which is [None] for a JSON
    null. *)
Record Session : Type := mkSession {
  llm_choice : option string;
  api_key : string;
  use_rag : option string;
  active_db : option string;
  chat_history : list (string * option string);
  system_message : string;
  temperature : option Q;
  max_tokens : option Z;
  last_rag_state : option string;
  last_payload : option (string * option string * option string)
}.

(** The JSON body posted to [/query_llm]. *)
Record Payload : Type := mkPayload {
  p_model_name : option string;
  p_api_key : string;
  p_prompt : string;
  p_system_message : string;
  p_chat_history : list (string * option string);
  p_use_rag : bool;
  p_db_path : option string;
  p_temperature : option Q;
  p_max_tokens : option Z
}.

(** What [asyncio.run(ask_backend(payload))] gives: a response with its
    status code and JSON body (the body of a [response_model] endpoint has
    the three keys of [LLMResponse]), or one of the exceptions handled. *)
Inductive Reply : Type :=
| http (status_code : nat) (result : App.LLMResponse)
| connect_error
| read_timeout
| other_error (e : string).

Definition opt_string_eqb (a b : option string) : bool :=
  match a, b with
  | Some x, Some y => String.eqb x y
  | None, None => true
  | _, _ => false
  end.

Definition payload_eqb (a b : string * option string * option string) : bool :=
  let '(m1, r1, c1) := a in
  let '(m2, r2, c2) := b in
  String.eqb m1 m2 && opt_string_eqb r1 r2 && opt_string_eqb c1 c2.

(** Lines 49-52. *)
Definition llm_ready (s : Session) : bool :=
  truthy_opt (llm_choice s) && truthy (strip (api_key s)).

Definition rag_ready (s : Session) : bool :=
  opt_string_eqb (use_rag s) (Some "No") || opt_string_eqb (use_rag s) (Some "Yes").

Definition rag_enabled (s : Session) : bool :=
  opt_string_eqb (use_rag s) (Some "Yes").

Definition has_db (s : Session) : bool := truthy_opt (active_db s).

(** The page is usable: none of the three warnings of lines 54-59 applies. *)
Definition ready (s : Session) : bool :=
  llm_ready s && rag_ready s && negb (rag_enabled s && negb (has_db s)).

Definition set_history (h : list (string * option string)) (s : Session)
  : Session :=
  mkSession (llm_choice s) (api_key s) (use_rag s) (active_db s) h
    (system_message s) (temperature s) (max_tokens s) (last_rag_state s)
    (last_payload s).

(** "Detect RAG Mode Switch (and reset chat)", lines 65-68. *)
Definition sync_rag_state (s : Session) : Session :=
  if negb (opt_string_eqb (last_rag_state s) (use_rag s)) then
    mkSession (llm_choice s) (api_key s) (use_rag s) (active_db s) []
      (system_message s) (temperature s) (max_tokens s) (use_rag s)
      (last_payload s)
  else s.

(** Lines 117-130, on the history that already ends with the new message. *)
Definition build_payload (s : Session) (user_message : string) : Payload :=
  mkPayload (llm_choice s) (api_key s) user_message (system_message s)
    (map (fun entry : string * option string =>
            ((if String.eqb (fst entry) "user" then "user" else "assistant"),
             snd entry))
         (removelast (chat_history s)))
    (rag_enabled s) (active_db s) (temperature s) (max_tokens s).

(** Lines 137-161: the text shown for the reply. *)
Definition bot_response (reply : Reply) : option string :=
  match reply with
  | http status_code result =>
      if (status_code =? 200)%nat then
        if App.success result then
          let text := strip (App.response result) in
          Some (if truthy text then text
                else "🤔 I couldn’t generate a proper answer this time.")
        else App.error_message result
      else Some ("❌ Server error (HTTP " ++ format_nat status_code ++ ").")
  | connect_error =>
      Some "❌ Cannot connect to backend. Make sure FastAPI is running."
  | read_timeout =>
      Some "❌ Request timed out. The backend took too long to respond."
  | other_error e => Some ("❌ Unexpected error: " ++ e)
  end.

Section WithBackend.
Variable ask_backend : Payload -> Reply.

(** Lines 103-164: a submitted message, on a usable page. *)
Definition submit (s : Session) (user_message : string) : Session :=
  let new_payload := (user_message, use_rag s, llm_choice s) in
  if match last_payload s with
     | Some old => payload_eqb new_payload old
     | None => false
     end
  then s
  else
    let s1 :=
      mkSession (llm_choice s) (api_key s) (use_rag s) (active_db s)
        (chat_history s ++ [("user", Some user_message)])%list
        (system_message s) (temperature s) (max_tokens s) (last_rag_state s)
        (Some new_payload) in
    let reply := ask_backend (build_payload s1 user_message) in
    set_history (chat_history s1 ++ [("assistant", bot_response reply)])%list s1.

(** One run of the script: [clear] tells whether "Clear Chat History" was
    clicked, [user_message] is what [st.chat_input] returned. *)
Definition run (s : Session) (clear : bool) (user_message : option string)
  : Session :=
  if negb (ready s) then s
  else
    let s1 := sync_rag_state s in
    if clear then set_history [] s1
    else
      match user_message with
      | Some m => if truthy m then submit s1 m else s1
      | None => s1
      end.
End WithBackend.

(** Specification side: what the page posts.  A model is chosen, the key is
    not blank, the prompt is not empty, and RAG comes with a store path. *)
Definition postable (payload : Payload) : Prop :=
  truthy_opt (p_model_name payload) = true
  /\ strip (p_api_key payload) <> ""
  /\ p_prompt payload <> ""
  /\ (p_use_rag payload = true -> truthy_opt (p_db_path payload) = true).

(** Specification side: a history made of turns, each a user message with
    the assistant entry that answered it. *)
Fixpoint turns (h : list (string * option string)) : Prop :=
  match h with
  | [] => True
  | (r1, Some _) :: (r2, _) :: rest =>
      r1 = "user" /\ r2 = "assistant" /\ turns rest
  | _ => False
  end.

End Chatbot.

(* ================================================================= *)
(** ** Further collaborators for the worked examples *)

Module Demo2.
Import PyStr Retrieval Ingestion.

Definition search_raises (dir question : string) (k : nat)
  : Exc (list Document) := inl "no such collection".

Definition completion_raises (key : string) (base : option string)
    (model : string) (messages : list App.Message) (max_tokens : option Z)
    (temperature : option Q) : Exc (option string) :=
  inl "Error code: 401 - Unauthorized".

Definition completion_hello (key : string) (base : option string)
    (model : string) (messages : list App.Message) (max_tokens : option Z)
    (temperature : option Q) : Exc (option string) := inr (Some "Hello!").

Definition generate_hello (key model full_prompt : string) : Exc string :=
  inr "Hello!".

Definition generate_raises (key model full_prompt : string) : Exc string :=
  inl "quota exceeded".

Definition load_raises (path bytes : string) : Exc (list Document) :=
  inl "cannot read".

Definition session0 : Chatbot.Session :=
  Chatbot.mkSession (Some "ChatGPT") "sk-test" (Some "No") None []
    "You are a helpful AI assistant." None None None None.

Definition backend_ok (payload : Chatbot.Payload) : Chatbot.Reply :=
  Chatbot.http 200 (App.mkLLMResponse " Hi there. " true None).

Definition zip_of (members : list (string * Exc string)) (bytes : string)
  : Exc (list (string * Exc string)) := inr members.

Definition zip_unreadable (bytes : string) : Exc (list (string * Exc string)) :=
  inl "File is not a zip file".

Definition rag_raises (question dir : string) : Exc string :=
  inl "no such collection".

Definition blank_key_request : App.LLMRequest :=
  App.mkLLMRequest "ChatGPT" "   " "hi" None [] false None None None.

Definition blank_prompt_request : App.LLMRequest :=
  App.mkLLMRequest "ChatGPT" "sk-test" (" " ++ LF) None [] false None None None.

Definition blank_success : App.LLMResponse :=
  App.mkLLMResponse ("  " ++ LF) true None.

(** A key that is one U+00A0 NO-BREAK SPACE, with an empty prompt. *)
Definition nbsp_key_request : App.LLMRequest :=
  App.mkLLMRequest "ChatGPT" (utf8 160) "" None [] false None None None.

(** A success whose text is U+00A0 followed by U+3000 IDEOGRAPHIC SPACE. *)
Definition wide_blank_success : App.LLMResponse :=
  App.mkLLMResponse (utf8 160 ++ utf8 12288) true None.

(** A backend that refuses a request without prompt. *)
Definition backend_picky (payload : Chatbot.Payload) : Chatbot.Reply :=
  if String.eqb (Chatbot.p_prompt payload) "" then Chatbot.connect_error
  else backend_ok payload.

Definition archive_upload : UploadedFile := mkUploadedFile "Docs.ZIP" "PK".

End Demo2.

(* ################################################################# *)
(** * Properties *)

(* ================================================================= *)
(** ** Facts about the string primitives *)

Module PyStrFacts.
Import PyStr.

Lemma append_nil_r (s : string) : s ++ "" = s.
Proof. induction s as [|c s IH]; simpl; [reflexivity | now rewrite IH]. Qed.

Lemma append_assoc (a b c : string) : (a ++ b) ++ c = a ++ b ++ c.
Proof. induction a as [|x a IH]; simpl; [reflexivity | now rewrite IH]. Qed.

(** Facts about single bytes, checked on the 256 of them. *)
Ltac all_bytes c :=
  destruct c as [[] [] [] [] [] [] [] []]; vm_compute; intros;
  try discriminate; auto.

Lemma plain_byte (c : ascii) :
  plain c = true ->
  lower_char c = c
  /\ Ascii.eqb c (byte 196) = false /\ Ascii.eqb c (byte 226) = false
  /\ Ascii.eqb c (byte 132) = false /\ Ascii.eqb c (byte 170) = false
  /\ Ascii.eqb c (byte 176) = false
  /\ Ascii.eqb c (byte 204) = false /\ Ascii.eqb c (byte 135) = false.
Proof. all_bytes c; repeat split. Qed.

Lemma upper_byte (c : ascii) :
  is_lower_letter c = true ->
  lower_char (upper_char c) = c
  /\ Ascii.eqb (upper_char c) (byte 196) = false
  /\ Ascii.eqb (upper_char c) (byte 226) = false
  /\ Ascii.eqb (upper_char c) (byte 132) = false
  /\ Ascii.eqb (upper_char c) (byte 170) = false
  /\ Ascii.eqb (upper_char c) (byte 176) = false.
Proof. all_bytes c; repeat split. Qed.

Lemma lower_char_plain (a : ascii) :
  plain (lower_char a) = true ->
  lower_char a = a
  \/ (is_lower_letter (lower_char a) = true /\ a = upper_char (lower_char a)).
Proof. all_bytes a. Qed.

Lemma lower_head (a : ascii) (t : string) :
  Ascii.eqb a (byte 196) = false -> Ascii.eqb a (byte 226) = false ->
  lower (String a t) = String (lower_char a) (lower t).
Proof.
  intros H1 H2. destruct t as [|b [|c t3]]; cbn [lower]; try reflexivity;
    unfold is_dotted_i, is_kelvin; rewrite H1, ?H2; reflexivity.
Qed.

Lemma lower_kelvin (t : string) :
  lower (kelvin_sign ++ t) = String "k" (lower t).
Proof. reflexivity. Qed.

Lemma lower_dotted_i (t : string) :
  lower (capital_dotted_i ++ t) = String "i" (combining_dot ++ lower t).
Proof. reflexivity. Qed.

(** The first code point of a text and what [lower] makes of it. *)
Lemma lower_cases (s : string) :
  s = ""
  \/ (exists t, s = kelvin_sign ++ t /\ lower s = String "k" (lower t))
  \/ (exists t, s = capital_dotted_i ++ t
                /\ lower s = String "i" (combining_dot ++ lower t))
  \/ (exists a t, s = String a t /\ lower s = String (lower_char a) (lower t)).
Proof.
  destruct s as [|a [|b s2]]; [now left | do 3 right; now exists a, "" |].
  destruct (is_dotted_i a b) eqn:Ed.
  - right. right. left. unfold is_dotted_i in Ed.
    apply andb_true_iff in Ed as [Ha Hb].
    apply Ascii.eqb_eq in Ha, Hb. subst. exists s2. split; reflexivity.
  - destruct s2 as [|c s3].
    + do 3 right. exists a, (String b ""). split; [reflexivity|].
      cbn [lower]. now rewrite Ed.
    + destruct (is_kelvin a b c) eqn:Ek.
      * right. left. unfold is_kelvin in Ek.
        apply andb_true_iff in Ek as [Ek Hc].
        apply andb_true_iff in Ek as [Ha Hb].
        apply Ascii.eqb_eq in Ha, Hb, Hc. subst. exists s3. split; reflexivity.
      * do 3 right. exists a, (String b (String c s3)). split; [reflexivity|].
        change (lower (String a (String b (String c s3))))
          with (if is_dotted_i a b
                then String "i" (String (byte 204) (String (byte 135)
                                                      (lower (String c s3))))
                else if is_kelvin a b c then String "k" (lower s3)
                     else String (lower_char a) (lower (String b (String c s3)))).
        now rewrite Ed, Ek.
Qed.

Lemma plain_tail_cons (c : ascii) (k : string) :
  plain_tail (String c k) = true -> plain c = true /\ plain_tail k = true.
Proof.
  destruct k as [|d k]; cbn [plain_tail]; intros H;
    apply andb_true_iff in H as [H1 H2]; auto.
Qed.

(** A fragment that reads as the keyword is lowered to the keyword,
    whatever follows it. *)
Lemma lower_ci_match (m k : string) :
  ci_match m k -> plain_tail k = true ->
  forall rest, lower (m ++ rest) = k ++ lower rest.
Proof.
  induction 1 as [|c m k _ IH|c m k Hc _ IH|m k _ IH]; intros Hk rest.
  - reflexivity.
  - apply plain_tail_cons in Hk as [Hp Hk].
    destruct (plain_byte c Hp) as (Hl & H1 & H2 & _).
    cbn [append]. rewrite lower_head, Hl, IH by assumption. reflexivity.
  - apply plain_tail_cons in Hk as [Hp Hk].
    destruct (upper_byte c Hc) as (Hl & H1 & H2 & _).
    cbn [append]. rewrite lower_head, Hl, IH by assumption. reflexivity.
  - apply plain_tail_cons in Hk as [Hp Hk].
    rewrite append_assoc, lower_kelvin, IH by assumption. reflexivity.
Qed.

Lemma lower_after (n : nat) :
  forall pre x, String.length pre <= n -> clean_start x ->
    exists l, lower (pre ++ x) = l ++ lower x.
Proof.
  induction n as [|n IH]; intros pre x Hn Hx.
  - destruct pre; [now exists "" | cbn in Hn; lia].
  - destruct pre as [|a pre1]; [now exists ""|]. cbn in Hn.
    destruct (lower_cases (String a pre1 ++ x))
      as [E | [(t & E & L) | [(t & E & L) | (a' & t & E & L)]]].
    + discriminate.
    + rewrite L. cbn in E. injection E as -> E.
      destruct pre1 as [|b pre2]; cbn in E.
      { subst x. cbn in Hx. destruct Hx as (H & _). discriminate. }
      injection E as -> E. destruct pre2 as [|c pre3]; cbn in E.
      { subst x. cbn in Hx. destruct Hx as (_ & H & _). discriminate. }
      injection E as -> <-. cbn in Hn.
      destruct (IH pre3 x) as [l Hl]; [lia | exact Hx |].
      rewrite Hl. now exists (String "k" l).
    + rewrite L. cbn in E. injection E as -> E.
      destruct pre1 as [|b pre2]; cbn in E.
      { subst x. cbn in Hx. destruct Hx as (_ & _ & H). discriminate. }
      injection E as -> <-. cbn in Hn.
      destruct (IH pre2 x) as [l Hl]; [lia | exact Hx |].
      rewrite Hl. exists (String "i" (combining_dot ++ l)).
      cbn. reflexivity.
    + rewrite L. cbn in E. injection E as <- <-.
      destruct (IH pre1 x) as [l Hl]; [lia | exact Hx |].
      rewrite Hl. now exists (String (lower_char a) l).
Qed.

Lemma ci_match_clean (m k : string) :
  ci_match m k -> plain_tail k = true ->
  forall post, clean_start (m ++ post) \/ k = "".
Proof.
  destruct 1 as [|c m k _|c m k Hc _|m k _]; intros Hk post.
  - now right.
  - left. apply plain_tail_cons in Hk as [Hp _].
    destruct (plain_byte c Hp) as (_ & _ & _ & H1 & H2 & H3 & _). cbn. auto.
  - left. destruct (upper_byte c Hc) as (_ & _ & _ & H1 & H2 & H3). cbn. auto.
  - left. cbn. auto.
Qed.

Lemma startswith_iff (p : string) :
  forall s, startswith s p = true <-> exists post, s = p ++ post.
Proof.
  induction p as [|a p IH]; intros s; simpl.
  - split; [intros _; now exists s | reflexivity].
  - destruct s as [|b s].
    + split; [discriminate | intros [post H]; discriminate].
    + rewrite andb_true_iff, Ascii.eqb_eq, IH. split.
      * intros [-> [post ->]]. now exists post.
      * intros [post H]. injection H as -> ->. split; [reflexivity|now exists post].
Qed.

Lemma contains_iff (sub : string) :
  forall s, contains sub s = true <-> exists pre post, s = pre ++ sub ++ post.
Proof.
  induction s as [|c s IH].
  - simpl. rewrite orb_false_r, startswith_iff. split.
    + intros [post H]. now exists "", post.
    + intros (pre & post & H). destruct pre; simpl in H.
      * now exists post.
      * discriminate.
  - cbn [contains]. rewrite orb_true_iff, startswith_iff, IH. split.
    + intros [[post H] | (pre & post & H)].
      * now exists "", post.
      * exists (String c pre), post. simpl. now rewrite H.
    + intros ([|x pre] & post & H); simpl in H.
      * left. now exists post.
      * right. injection H as _ H. now exists pre, post.
Qed.

(** Where the lowered text splits before a plain character, the text
    splits too. *)
Lemma split_before (n : nat) :
  forall a t f b,
    String.length a <= n -> plain f = true ->
    lower t = a ++ String f b ->
    exists ta tb, t = ta ++ tb /\ lower tb = String f b.
Proof.
  induction n as [|n IH]; intros a t f b Hn Hf H.
  - destruct a; [now exists "", t | cbn in Hn; lia].
  - destruct a as [|x a']; [now exists "", t|]. cbn in Hn.
    destruct (plain_byte f Hf) as (_ & _ & _ & _ & _ & _ & F204 & F135).
    destruct (lower_cases t)
      as [E | [(t3 & E & L) | [(t2 & E & L) | (y & t1 & E & L)]]];
      rewrite L in H || (subst t; discriminate).
    + cbn in H. injection H as _ H.
      destruct (IH a' t3 f b) as (ta & tb & -> & Hb); [lia | auto | auto |].
      exists (kelvin_sign ++ ta), tb. now rewrite E, append_assoc.
    + cbn in H. injection H as _ H.
      destruct a' as [|y a'']; cbn in H.
      { injection H as <- _. discriminate. }
      injection H as _ H. destruct a'' as [|z a3]; cbn in H.
      { injection H as <- _. discriminate. }
      injection H as _ H. cbn in Hn.
      destruct (IH a3 t2 f b) as (ta & tb & -> & Hb); [lia | auto | auto |].
      exists (capital_dotted_i ++ ta), tb. now rewrite E, append_assoc.
    + cbn in H. injection H as _ H.
      destruct (IH a' t1 f b) as (ta & tb & -> & Hb); [lia | auto | auto |].
      exists (String y ta), tb. now rewrite E.
Qed.

(** A text whose lowering starts with the keyword starts with a fragment
    that reads as the keyword. *)
Lemma take_match (k : string) :
  forall tb r, plain_tail k = true -> lower tb = k ++ r ->
    exists tm tp, tb = tm ++ tp /\ ci_match tm k.
Proof.
  induction k as [|c k IH]; intros tb r Hk H.
  - exists "", tb. split; [reflexivity | constructor].
  - pose proof Hk as Hk0. apply plain_tail_cons in Hk as [Hc Hk].
    cbn [append] in H.
    destruct (lower_cases tb)
      as [E | [(t3 & E & L) | [(t2 & E & L) | (y & t1 & E & L)]]];
      rewrite L in H || (subst tb; discriminate).
    + injection H as <- H.
      destruct (IH t3 r Hk H) as (tm & tp & -> & Hm).
      exists (kelvin_sign ++ tm), tp. split; [now rewrite E, append_assoc|].
      now constructor.
    + exfalso. injection H as <- H.
      destruct k as [|d k]; [cbn in Hk0; discriminate|].
      cbn in H. injection H as <- _.
      destruct (plain_tail_cons _ _ Hk) as [Hd _]. discriminate.
    + injection H as Hy H.
      destruct (IH t1 r Hk H) as (tm & tp & -> & Hm).
      rewrite <- Hy in Hc.
      destruct (lower_char_plain y Hc) as [Hs | [Hl Hu]].
      * exists (String y tm), tp. split; [now rewrite E|].
        rewrite <- Hy, Hs. now constructor.
      * exists (String y tm), tp. split; [now rewrite E|].
        rewrite <- Hy. rewrite Hu at 1. now constructor.
Qed.

(** The test of the program, [keyword in text.lower()], decides
    [mentions] for the keywords it is used with. *)
Lemma mentions_iff (keyword text : string) :
  keyword_ok keyword = true ->
  (mentions keyword text <-> contains keyword (lower text) = true).
Proof.
  intros Hok. unfold keyword_ok in Hok.
  apply andb_true_iff in Hok as [Hne Hk].
  apply negb_true_iff, String.eqb_neq in Hne.
  rewrite contains_iff. unfold mentions. split.
  - intros (pre & mid & post & -> & Hm).
    destruct (ci_match_clean mid keyword Hm Hk post) as [Hc | E];
      [|contradiction].
    destruct (lower_after (String.length pre) pre (mid ++ post)) as [l Hl];
      [lia | exact Hc |].
    exists l, (lower post).
    now rewrite Hl, (lower_ci_match mid keyword Hm Hk).
  - intros (l & r & H).
    destruct keyword as [|f k]; [contradiction|].
    pose proof Hk as Hk0. apply plain_tail_cons in Hk0 as [Hf _].
    cbn [append] in H.
    destruct (split_before (String.length l) l text f (k ++ r))
      as (ta & tb & -> & Hb); [lia | exact Hf | exact H |].
    destruct (take_match (String f k) tb r Hk Hb) as (tm & tp & -> & Hm).
    now exists ta, tm, tp.
Qed.

Lemma truthy_true (s : string) : truthy s = true <-> s <> "".
Proof. unfold truthy. rewrite negb_true_iff. apply String.eqb_neq. Qed.

Lemma truthy_false (s : string) : truthy s = false <-> s = "".
Proof. unfold truthy. rewrite negb_false_iff. apply String.eqb_eq. Qed.

Lemma or_else_nonempty (a : option string) (b : string) :
  b <> "" -> or_else a b <> "".
Proof.
  intros Hb. destruct a as [s|]; simpl; [|exact Hb].
  destruct (truthy s) eqn:E; [now apply truthy_true | exact Hb].
Qed.

End PyStrFacts.

(* ================================================================= *)
(** ** The LLM router *)

Module AppFacts.
Import PyStr PyStrFacts App.

Lemma auth_error_iff (error : string) :
  auth_error error <->
  contains "401" (lower error) || contains "invalid api key" (lower error)
  || contains "authentication" (lower error) = true.
Proof.
  unfold auth_error.
  rewrite !orb_true_iff, !mentions_iff by reflexivity. tauto.
Qed.

Lemma quota_error_iff (error : string) :
  quota_error error <->
  contains "quota" (lower error) || contains "limit" (lower error) = true.
Proof.
  unfold quota_error.
  rewrite !orb_true_iff, !mentions_iff by reflexivity. tauto.
Qed.

(** C4. For every provider and every error text, [parse_api_error] answers
    with the invalid-key message when the text mentions "401", "invalid api
    key" or "authentication" in any letter case; otherwise with the quota
    message when it mentions "quota" or "limit"; otherwise with the generic
    provider message, which carries the text.  The provider name only fills
    the template. *)
Theorem C4_parse_api_error_classification (provider error : string) :
  (auth_error error ->
   parse_api_error provider error
   = "❌ Invalid API key. Please check your " ++ provider ++ " API key.")
  /\ (~ auth_error error -> quota_error error ->
      parse_api_error provider error
      = "⚠️ " ++ provider
        ++ " API quota exceeded. Please check your account limits.")
  /\ (~ auth_error error -> ~ quota_error error ->
      parse_api_error provider error
      = "❌ " ++ provider ++ " API error: " ++ error).
Proof.
  unfold parse_api_error.
  rewrite auth_error_iff, quota_error_iff.
  destruct (contains "401" (lower error) || contains "invalid api key" (lower error)
            || contains "authentication" (lower error)) eqn:Ea;
  destruct (contains "quota" (lower error) || contains "limit" (lower error)) eqn:Eq;
  repeat split; intros; congruence.
Qed.

Lemma C4_classification_witness :
  parse_api_error "Gemini" "HTTP 401 Unauthorized"
  = "❌ Invalid API key. Please check your Gemini API key."
  /\ parse_api_error "OpenAI" "Rate LIMIT reached"
     = "⚠️ OpenAI API quota exceeded. Please check your account limits."
  /\ parse_api_error "DeepSeek" "connection reset"
     = "❌ DeepSeek API error: connection reset"
  /\ parse_api_error "OpenAI" ("INVALID API " ++ kelvin_sign ++ "EY")
     = "❌ Invalid API key. Please check your OpenAI API key."
  /\ parse_api_error "OpenAI" ("L" ++ capital_dotted_i ++ "MIT")
     = "❌ OpenAI API error: " ++ "L" ++ capital_dotted_i ++ "MIT".
Proof.
  split; [|split; [|split; [|split]]].
  - apply (proj1 (C4_parse_api_error_classification "Gemini" "HTTP 401 Unauthorized")).
    apply auth_error_iff. reflexivity.
  - apply (proj1 (proj2 (C4_parse_api_error_classification "OpenAI" "Rate LIMIT reached"))).
    + intros H. apply auth_error_iff in H. vm_compute in H. discriminate.
    + apply quota_error_iff. reflexivity.
  - apply (proj2 (proj2 (C4_parse_api_error_classification "DeepSeek" "connection reset"))).
    + intros H. apply auth_error_iff in H. vm_compute in H. discriminate.
    + intros H. apply quota_error_iff in H. vm_compute in H. discriminate.
  - apply (proj1 (C4_parse_api_error_classification "OpenAI"
                    ("INVALID API " ++ kelvin_sign ++ "EY"))).
    right. left. exists "", ("INVALID API " ++ kelvin_sign ++ "EY"), "".
    split; [reflexivity|].
    apply (ci_upper "i" _ _ eq_refl), (ci_upper "n" _ _ eq_refl),
      (ci_upper "v" _ _ eq_refl), (ci_upper "a" _ _ eq_refl),
      (ci_upper "l" _ _ eq_refl), (ci_upper "i" _ _ eq_refl),
      (ci_upper "d" _ _ eq_refl), ci_same, (ci_upper "a" _ _ eq_refl),
      (ci_upper "p" _ _ eq_refl), (ci_upper "i" _ _ eq_refl), ci_same,
      (ci_kelvin "EY"), (ci_upper "e" _ _ eq_refl),
      (ci_upper "y" _ _ eq_refl), ci_nil.
  - apply (proj2 (proj2 (C4_parse_api_error_classification "OpenAI"
                           ("L" ++ capital_dotted_i ++ "MIT")))).
    + intros H. apply auth_error_iff in H. vm_compute in H. discriminate.
    + intros H. apply quota_error_iff in H. vm_compute in H. discriminate.
Defined.

Section WithProviders.
Variable chat_completions_create :
  string -> option string -> string -> list Message -> option Z -> option Q ->
  Exc (option string).
Variable generate_content : string -> string -> string -> Exc string.
Variable query_rag : string -> string -> Exc string.

Local Abbreviation route := (App.route chat_completions_create generate_content).
Local Abbreviation query_llm :=
  (App.query_llm chat_completions_create generate_content query_rag).
Local Abbreviation apply_rag := (App.apply_rag query_rag).
Local Abbreviation provider_returned_empty :=
  (App.provider_returned_empty chat_completions_create generate_content).
Local Abbreviation adapter_receives :=
  (App.adapter_receives chat_completions_create generate_content query_rag).

(** What [finish] makes of any adapter result. *)
Lemma finish_cases (result : AdapterResult) :
  (exists t, t <> "" /\ finish result = mkLLMResponse t true None)
  \/ (exists m, m <> "" /\ finish result = mkLLMResponse "" false (Some m)).
Proof.
  destruct result as [[text ok] err]. unfold finish.
  assert (Hd : or_else err "No valid response generated." <> "")
    by (apply or_else_nonempty; discriminate).
  destruct text as [t|]; [|right; eauto].
  destruct ok; simpl; [|right; eauto].
  destruct (truthy t) eqn:E; [left | right; eauto].
  exists t. split; [now apply truthy_true | reflexivity].
Qed.

Lemma route_cases (request : LLMRequest) (p sys : string) :
  (exists t, t <> "" /\ route request p sys = mkLLMResponse t true None)
  \/ (exists m, m <> "" /\ route request p sys = mkLLMResponse "" false (Some m)).
Proof.
  unfold App.route.
  destruct (String.eqb (model_name request) "DeepSeek"); [apply finish_cases|].
  destruct (String.eqb (model_name request) "Gemini"); [apply finish_cases|].
  destruct (String.eqb (model_name request) "ChatGPT"); [apply finish_cases|].
  right. eexists. split; [|reflexivity]. discriminate.
Qed.

(** The endpoint either answers with one of its three early failures or
    routes the prompt that the RAG step produced. *)
Lemma query_llm_cases (request : LLMRequest) :
  (exists m, m <> "" /\ query_llm request = mkLLMResponse "" false (Some m))
  \/ (valid request /\
      exists p, apply_rag request (strip (prompt request)) = inr p
                /\ query_llm request = route request p (system_for request)).
Proof.
  unfold App.query_llm.
  destruct (truthy (strip (api_key request))) eqn:Ek; simpl;
    [|left; eexists; split; [|reflexivity]; discriminate].
  destruct (truthy (strip (prompt request))) eqn:Ep; simpl;
    [|left; eexists; split; [|reflexivity]; discriminate].
  destruct (apply_rag request (strip (prompt request))) as [failure|p] eqn:Er.
  - left. unfold App.apply_rag in Er.
    destruct (use_rag request); [|discriminate].
    destruct (negb (truthy_opt (db_path request))); [discriminate|].
    destruct (query_rag _ _); [|discriminate].
    injection Er as <-. eexists. split; [|reflexivity]. discriminate.
  - right. split.
    + split; now apply truthy_true.
    + exists p. split; reflexivity.
Qed.

Lemma query_llm_routed (request : LLMRequest) (p : string) :
  valid request ->
  apply_rag request (strip (prompt request)) = inr p ->
  query_llm request = route request p (system_for request).
Proof.
  intros [Hk Hp] Hr.
  apply truthy_true in Hk. apply truthy_true in Hp.
  unfold App.query_llm. rewrite Hk, Hp. cbn [negb].
  rewrite Hr. reflexivity.
Qed.

Lemma route_deepseek (request : LLMRequest) (p sys : string) :
  model_name request = "DeepSeek" ->
  route request p sys
  = finish (get_deepseek_llm chat_completions_create (api_key request) p sys
              (chat_history request) (temperature request)
              (max_tokens request)).
Proof. intros H. unfold App.route. now rewrite H. Qed.

Lemma route_gemini (request : LLMRequest) (p sys : string) :
  model_name request = "Gemini" ->
  route request p sys
  = finish (get_gemini_llm generate_content (api_key request) p sys
              (chat_history request)).
Proof. intros H. unfold App.route. now rewrite H. Qed.

Lemma route_chatgpt (request : LLMRequest) (p sys : string) :
  model_name request = "ChatGPT" ->
  route request p sys
  = finish (get_openai_llm chat_completions_create (api_key request) p sys
              (chat_history request) (temperature request)
              (max_tokens request)).
Proof. intros H. unfold App.route. now rewrite H. Qed.

(** The prompt that leaves the RAG step of a validated request with RAG
    requested: the template around the retrieved context when a store path
    is supplied and retrieval answers, the trimmed prompt when the path is
    missing or empty. *)
Lemma rag_step_routed (request : LLMRequest) :
  valid request ->
  use_rag request = true ->
  (forall path context,
      db_path request = Some path -> path <> "" ->
      query_rag (strip (prompt request)) path = inr context ->
      query_llm request
      = route request
          ("Use the following context to answer:" ++ LF ++ LF ++ context
           ++ LF ++ LF ++ "Question: " ++ strip (prompt request))
          (system_for request))
  /\ (db_path request = None \/ db_path request = Some "" ->
      query_llm request
      = route request (strip (prompt request)) (system_for request)).
Proof.
  intros [Hk Hp] Hrag.
  apply truthy_true in Hk. apply truthy_true in Hp.
  unfold App.query_llm, App.apply_rag.
  rewrite Hk, Hp, Hrag. simpl. split.
  - intros path context Hdb Hne Hq. rewrite Hdb. simpl.
    apply truthy_true in Hne. rewrite Hne, Hq. reflexivity.
  - intros [Hdb | Hdb]; rewrite Hdb; reflexivity.
Qed.

(** Whatever prompt the endpoint routes is the prompt its adapter is
    called with. *)
Lemma routed_prompt_received (request : LLMRequest) (p : string) :
  query_llm request = route request p (system_for request) ->
  adapter_receives request p.
Proof.
  intros E. unfold App.adapter_receives. rewrite E.
  repeat split; intros Hm.
  - now apply route_deepseek.
  - now apply route_gemini.
  - now apply route_chatgpt.
Qed.

(** C6. For a request that passes validation with RAG requested: when a
    non-empty store path is supplied and retrieval answers, the adapter of
    the request's model is called with the fixed template around the
    retrieved context and the prompt of the request with its surrounding
    whitespace stripped (the retrieval query is that stripped prompt too);
    when the store path is missing or empty, the adapter is called with the
    stripped prompt, so the request proceeds to the provider rather than
    failing on the missing path. *)
Theorem C6_adapter_receives_stripped_prompt (request : LLMRequest) :
  valid request ->
  use_rag request = true ->
  (forall path context,
      db_path request = Some path -> path <> "" ->
      query_rag (strip (prompt request)) path = inr context ->
      adapter_receives request
        ("Use the following context to answer:" ++ LF ++ LF ++ context
         ++ LF ++ LF ++ "Question: " ++ strip (prompt request)))
  /\ (db_path request = None \/ db_path request = Some "" ->
      adapter_receives request (strip (prompt request))).
Proof.
  intros Hv Hrag.
  destruct (rag_step_routed request Hv Hrag) as [Hctx Hnone]. split.
  - intros path context Hdb Hne Hq.
    apply routed_prompt_received. now apply (Hctx path context).
  - intros Hdb. apply routed_prompt_received. now apply Hnone.
Qed.

(** C8. When the provider call made for a request succeeds without any
    text, the endpoint answers with [success = false], an empty
    [response] and a non-empty [error_message]; and no answer of the
    endpoint has [success = true] with an empty [response]. *)
Theorem C8_empty_output_is_failure :
  (forall request p,
      valid request ->
      apply_rag request (strip (prompt request)) = inr p ->
      provider_returned_empty request p ->
      success (query_llm request) = false
      /\ response (query_llm request) = ""
      /\ exists m, error_message (query_llm request) = Some m /\ m <> "")
  /\ (forall request,
         success (query_llm request) = true ->
         response (query_llm request) <> "").
Proof.
  split.
  - intros request p Hv Hr Hempty.
    rewrite (query_llm_routed request p Hv Hr).
    destruct Hempty as [[Hm (c & Hc & Ht)] | [[Hm Hc] | [Hm (c & Hc & Ht)]]].
    + rewrite (route_deepseek _ _ _ Hm). unfold get_deepseek_llm.
      rewrite Hc. destruct c as [t|]; cbn in *; [rewrite Ht|];
        (repeat split; eexists; split; [reflexivity | discriminate]).
    + rewrite (route_gemini _ _ _ Hm). unfold get_gemini_llm.
      rewrite Hc. cbn.
      repeat split; eexists; split; [reflexivity | discriminate].
    + rewrite (route_chatgpt _ _ _ Hm). unfold get_openai_llm.
      rewrite Hc. destruct c as [t|]; cbn in *; [rewrite Ht|];
        (repeat split; eexists; split; [reflexivity | discriminate]).
  - intros request Hs.
    destruct (query_llm_cases request) as [(m & _ & E) | (_ & p & _ & E)].
    + rewrite E in Hs. discriminate.
    + rewrite E in *.
      destruct (route_cases request p (system_for request))
        as [(t & Ht & E') | (m & _ & E')]; rewrite E' in *.
      * exact Ht.
      * discriminate.
Qed.

(** C10. Every response of the endpoint is well formed: a failure has an
    empty [response] and a non-empty [error_message], a success has no
    [error_message].  This covers the validation, RAG-failure,
    unknown-model, provider-failure and provider-success returns. *)
Theorem C10_response_well_formed (request : LLMRequest) :
  well_formed (query_llm request).
Proof.
  assert (Hf : forall m, m <> "" -> well_formed (mkLLMResponse "" false (Some m))).
  { intros m Hm. split; simpl; [eauto | discriminate]. }
  destruct (query_llm_cases request) as [(m & Hm & E) | (_ & p & _ & E)];
    rewrite E; [now apply Hf|].
  destruct (route_cases request p (system_for request))
    as [(t & Ht & E') | (m & Hm & E')]; rewrite E'; [|now apply Hf].
  split; simpl; [discriminate | reflexivity].
Qed.

End WithProviders.

End AppFacts.


(* ================================================================= *)
(** ** Retrieval *)

Module RetrievalFacts.
Import PyStr PyStrFacts Retrieval.

Lemma join_blank_lines (texts : list string) :
  join (LF ++ LF) texts = blank_line_joined texts.
Proof.
  unfold join, blank_line_joined.
  induction texts as [|t rest IH]; [reflexivity|].
  destruct rest as [|u rest']; [now rewrite append_nil_r|].
  change (String.concat (LF ++ LF) (t :: u :: rest'))
    with (t ++ (LF ++ LF) ++ String.concat (LF ++ LF) (u :: rest')).
  rewrite IH. cbn [map String.concat].
  destruct rest' as [|v rest'']; cbn [map String.concat].
  - now rewrite !append_nil_r.
  - now rewrite !append_assoc.
Qed.

Section WithIndex.
Variable similarity_search : string -> string -> nat -> Exc (list Document).

(** C7. Whatever the question, the store path and [k]: when the index
    answers with a list of chunks, [query_rag] returns, as a value, their
    texts in the order of the index with a blank line between neighbours;
    when the index answers with no chunk at all (empty store, nothing
    found) the value is the empty string. *)
Theorem C7_query_rag_joins_in_order (question persist_directory : string)
    (k : nat) :
  (forall results,
      similarity_search persist_directory question k = inr results ->
      query_rag similarity_search question persist_directory k
      = inr (blank_line_joined (map page_content results)))
  /\ (similarity_search persist_directory question k = inr [] ->
      query_rag similarity_search question persist_directory k = inr "").
Proof.
  unfold query_rag. split.
  - intros results ->. now rewrite join_blank_lines.
  - intros ->. reflexivity.
Qed.
End WithIndex.

Lemma C7_query_rag_witness :
  query_rag Demo.search_two "anything" "chroma_dbs/docs" 3
  = inr ("first" ++ LF ++ LF ++ "second")
  /\ query_rag Demo.search_nothing "anything" "chroma_dbs/fresh" 3 = inr "".
Proof.
  split.
  - apply (proj1 (C7_query_rag_joins_in_order Demo.search_two "anything"
                    "chroma_dbs/docs" 3)
             [mkDocument "first" "a.txt"; mkDocument "second" "b.txt"]).
    reflexivity.
  - apply (proj2 (C7_query_rag_joins_in_order Demo.search_nothing "anything"
                    "chroma_dbs/fresh" 3)).
    reflexivity.
Defined.

End RetrievalFacts.

(* ================================================================= *)
(** ** The chunker *)

Module ChunkerFacts.
Import Chunker.

Lemma ceil_div_unit (a b : Z) : (0 < a <= b)%Z -> ceil_div a b = 1%Z.
Proof.
  intros H. unfold ceil_div.
  rewrite <- (Z.div_unique (- a) b (-1) (b - a)); lia.
Qed.

Lemma ceil_div_step (a b : Z) :
  (0 < b)%Z -> ceil_div (a - b) b = (ceil_div a b - 1)%Z.
Proof.
  intros H. unfold ceil_div.
  replace (- (a - b))%Z with (- a + 1 * b)%Z by lia.
  rewrite Z.div_add by lia. lia.
Qed.

Section Windows.
Context {A : Type}.
Variables size overlap : nat.
Hypothesis overlap_lt_size : overlap < size.

Lemma windows_short (fuel : nat) (text : list A) :
  length text <= size ->
  windows (S fuel) size (size - overlap) text = [text].
Proof.
  intros H. cbn [windows].
  apply Nat.leb_le in H as Hb. rewrite Hb.
  now rewrite firstn_all2.
Qed.

Lemma windows_long (fuel : nat) (text : list A) :
  size < length text ->
  windows (S fuel) size (size - overlap) text
  = firstn size text
    :: windows fuel size (size - overlap) (skipn (size - overlap) text).
Proof.
  intros H. cbn [windows].
  apply Nat.leb_gt in H as Hb. now rewrite Hb.
Qed.

Lemma windows_count (fuel : nat) :
  forall text : list A,
    overlap < length text -> length text <= fuel ->
    Z.of_nat (length (windows fuel size (size - overlap) text))
    = chunk_count (length text) size overlap.
Proof.
  induction fuel as [|fuel IH]; intros text Ho Hf; [lia|].
  unfold chunk_count.
  destruct (Nat.le_gt_cases (length text) size) as [Hs | Hs].
  - rewrite windows_short by exact Hs.
    rewrite ceil_div_unit by lia. reflexivity.
  - rewrite windows_long by exact Hs. cbn [length].
    rewrite Nat2Z.inj_succ, IH by (rewrite length_skipn; lia).
    unfold chunk_count. rewrite length_skipn.
    replace (Z.of_nat (length text - (size - overlap)) - Z.of_nat overlap)%Z
      with ((Z.of_nat (length text) - Z.of_nat overlap)
            - (Z.of_nat size - Z.of_nat overlap))%Z by lia.
    rewrite ceil_div_step by lia. lia.
Qed.

Lemma windows_tails (fuel : nat) :
  forall text : list A,
    overlap < length text -> length text <= fuel ->
    concat (map (skipn overlap) (windows fuel size (size - overlap) text))
    = skipn overlap text.
Proof.
  induction fuel as [|fuel IH]; intros text Ho Hf; [lia|].
  destruct (Nat.le_gt_cases (length text) size) as [Hs | Hs].
  - rewrite windows_short by exact Hs. cbn. now rewrite app_nil_r.
  - rewrite windows_long by exact Hs. cbn [map concat].
    rewrite IH by (rewrite length_skipn; lia).
    rewrite skipn_skipn.
    replace (overlap + (size - overlap)) with size by lia.
    rewrite <- (firstn_skipn size text) at 3.
    rewrite skipn_app, length_firstn.
    replace (overlap - Nat.min size (length text)) with 0 by lia.
    reflexivity.
Qed.

Lemma windows_reconstruct (fuel : nat) (text : list A) :
  0 < length text -> length text <= fuel ->
  reconstruct overlap (windows fuel size (size - overlap) text) = text.
Proof.
  intros Hl Hf. destruct fuel as [|fuel]; [lia|].
  destruct (Nat.le_gt_cases (length text) size) as [Hs | Hs].
  - rewrite windows_short by exact Hs. cbn. now rewrite app_nil_r.
  - rewrite windows_long by exact Hs. cbn [reconstruct].
    rewrite windows_tails by (rewrite length_skipn; lia).
    rewrite skipn_skipn.
    replace (overlap + (size - overlap)) with size by lia.
    apply firstn_skipn.
Qed.

(** C5, as amended.  With an overlap below the chunk size, a text longer
    than the overlap is cut into the ceiling of (L - O) / (S - O) chunks,
    a non-empty text of at most O characters into exactly one chunk, and
    the empty text into none; in every case the first chunk followed by
    the later chunks without their first O characters is the text. *)
Theorem C5_chunk_count_and_reconstruction (text : list A) :
  (overlap < length text ->
   Z.of_nat (length (split_text size overlap text))
   = chunk_count (length text) size overlap)
  /\ (0 < length text <= overlap ->
      length (split_text size overlap text) = 1)
  /\ (length text = 0 -> split_text size overlap text = [])
  /\ reconstruct overlap (split_text size overlap text) = text.
Proof.
  destruct text as [|c text]; cbn [split_text].
  - cbn. repeat split; intros; try reflexivity; lia.
  - remember (c :: text) as t eqn:Et.
    assert (Hl : 0 < length t) by (subst t; cbn; lia).
    repeat split.
    + intros Ho. now apply windows_count.
    + intros [_ Ho]. destruct (length t) as [|n] eqn:En; [lia|].
      rewrite windows_short by lia. reflexivity.
    + lia.
    + now apply windows_reconstruct.
Qed.
End Windows.

(** C5 as stated fails on a short document: five characters give one chunk,
    where the ceiling of (L - O) / (S - O) is zero. *)
Lemma C5_short_document_counterexample :
  Z.of_nat (length (split_text chunk_size chunk_overlap
                      (list_ascii_of_string "hello")))
  <> chunk_count (length (list_ascii_of_string "hello"))
       chunk_size chunk_overlap.
Proof. vm_compute. discriminate. Qed.

Lemma C5_chunking_witness :
  chunk_overlap < chunk_size
  /\ Z.of_nat (length (split_text chunk_size chunk_overlap Demo.text2500)) = 3%Z
  /\ reconstruct chunk_overlap (split_text chunk_size chunk_overlap Demo.text2500)
     = Demo.text2500.
Proof.
  assert (H : chunk_overlap < chunk_size) by (unfold chunk_overlap, chunk_size; lia).
  split; [exact H|].
  destruct (C5_chunk_count_and_reconstruction chunk_size chunk_overlap H
              Demo.text2500) as (Hc & _ & _ & Hr).
  split; [|exact Hr].
  rewrite Hc; [reflexivity|]. vm_compute. lia.
Defined.

End ChunkerFacts.

(* ================================================================= *)
(** ** Preparing the uploads *)

Module DatabaseManagerFacts.
Import PyStr Ingestion DatabaseManager.

Lemma extract_members_eligible (members : list (string * Exc string))
    (f : UploadedFile) :
  In f (extract_members members) ->
  exists member bytes,
    In (member, inr bytes) members /\ eligible member = true
    /\ f = mkUploadedFile (basename member) bytes.
Proof.
  induction members as [|[member extracted] rest IH]; cbn [extract_members];
    [intros []|].
  destruct (eligible member) eqn:E.
  - destruct extracted as [e | bytes]; [intros []|].
    intros [<- | H].
    + exists member, bytes. split; [now left | auto].
    + destruct (IH H) as (m & b & Hin & He & Hf).
      exists m, b. split; [now right | auto].
  - intros H. destruct (IH H) as (m & b & Hin & He & Hf).
    exists m, b. split; [now right | auto].
Qed.

(** Every file handed to the ingestion is an upload that is not a zip
    archive, or a member of an archive whose name ends in .pdf or .txt. *)
Lemma files_for_embedding_origin (read_zip : string -> Exc (list (string * Exc string)))
    (uploaded_files : list UploadedFile) (f : UploadedFile) :
  In f (files_for_embedding read_zip uploaded_files) ->
  (In f uploaded_files /\ endswith (lower (name f)) ".zip" = false)
  \/ (exists member, eligible member = true /\ name f = basename member).
Proof.
  unfold files_for_embedding. rewrite in_flat_map.
  intros (u & Hu & Hf). unfold prepare in Hf.
  destruct (endswith (lower (name u)) ".zip") eqn:Ez.
  - right. destruct (read_zip (data u)) as [e | members]; [destruct Hf|].
    destruct (extract_members_eligible _ _ Hf) as (m & b & _ & He & ->).
    now exists m.
  - left. destruct Hf as [<- | []]. auto.
Qed.

End DatabaseManagerFacts.

(* ================================================================= *)
(** ** Ingestion *)

Module IngestionFacts.
Import PyStr PyStrFacts Retrieval Ingestion.

Lemma Qnat_nonzero (n : nat) : n <> 0 -> ~ (Qnat n == 0)%Q.
Proof.
  intros Hn H. unfold Qnat, Qeq in H. cbn in H. lia.
Qed.

Lemma Qnat_sub (t p : nat) : p <= t -> (Qnat (t - p) == Qnat t - Qnat p)%Q.
Proof.
  intros H. unfold Qnat. rewrite Nat2Z.inj_sub by exact H.
  unfold Z.sub, Qminus. now rewrite inject_Z_plus, inject_Z_opp.
Qed.

Lemma truediv_nonzero (a b : Q) : ~ (b == 0)%Q -> truediv a b = inr (a / b)%Q.
Proof.
  intros H. unfold truediv.
  destruct (Qeq_bool b 0) eqn:E; [|reflexivity].
  apply Qeq_bool_eq in E. contradiction.
Qed.

Lemma slice_length {A : Type} (l : list A) (i : nat) :
  length (slice l i (i + batch_size)) = Nat.min batch_size (length l - i).
Proof.
  unfold slice. rewrite length_firstn, length_skipn.
  now replace (i + batch_size - i) with batch_size by lia.
Qed.

Lemma slice_then_rest {A : Type} (l : list A) (i : nat) :
  (slice l i (i + batch_size) ++ skipn (i + batch_size) l)%list = skipn i l.
Proof.
  unfold slice. replace (i + batch_size - i) with batch_size by lia.
  rewrite (Nat.add_comm i batch_size), <- skipn_skipn.
  apply firstn_skipn.
Qed.

Lemma range_from_nil (fuel i n : nat) :
  n <= i -> range_from fuel i n batch_size = [].
Proof.
  intros H. destruct fuel as [|fuel]; [reflexivity|]. cbn [range_from].
  apply Nat.ltb_ge in H. now rewrite H.
Qed.

Lemma range_from_cons (fuel i n : nat) :
  i < n ->
  range_from (S fuel) i n batch_size
  = i :: range_from fuel (i + batch_size) n batch_size.
Proof.
  intros H. cbn [range_from]. apply Nat.ltb_lt in H. now rewrite H.
Qed.

Section WithCollaborators.
Variable PyPDFLoader_load : string -> string -> Exc (list Document).
Variable TextLoader_load : string -> string -> Exc (list Document).
Variable split_documents : list Document -> list Document.
Variable add_documents_raises : list Document -> option string.
Variable time_time : nat -> Q.
Variable strftime : nat -> string.

Local Abbreviation load_file :=
  (Ingestion.load_file PyPDFLoader_load TextLoader_load split_documents).
Local Abbreviation load_files :=
  (Ingestion.load_files PyPDFLoader_load TextLoader_load split_documents).
Local Abbreviation loaded_chunks :=
  (Ingestion.loaded_chunks PyPDFLoader_load TextLoader_load split_documents).
Local Abbreviation embed_batches :=
  (Ingestion.embed_batches add_documents_raises time_time).
Local Abbreviation process_and_add_files :=
  (Ingestion.process_and_add_files PyPDFLoader_load TextLoader_load
     split_documents add_documents_raises time_time strftime).

Lemma load_file_inv (files : list UploadedFile) (w : World)
    (docs : list Document) (n : nat) (w0 : World) (file : UploadedFile) :
  load_inv files w docs n w0 ->
  exists docs1 n1 w1,
    load_file (docs, n, w0) file = (docs1, n1, w1)
    /\ load_inv (files ++ [file]) w docs1 n1 w1.
Proof.
  intros [Ht Hi Hm Hk (created & Hc & Hl & Hf) (errs & Hu & He)].
  unfold Ingestion.load_file, NamedTemporaryFile.
  set (ext := lower (splitext_ext (name file))).
  set (entry := mkTmpEntry ("tmp" ++ format_nat (tmp_seq w0) ++ ext) true).
  assert (Hentry : Forall (fun e => globbed e = true /\ removable e = true)
                     (created ++ [entry])).
  { apply Forall_app. split; [exact Hf|]. constructor; [|constructor].
    split; reflexivity. }
  assert (Hlen : length (created ++ [entry]) = length (files ++ [file]))
    by (rewrite !length_app; cbn; lia).
  destruct (if String.eqb ext ".pdf" then _ else _) as [e | loaded].
  - do 3 eexists. split; [reflexivity|].
    constructor; cbn; try assumption.
    + exists (created ++ [entry])%list. rewrite Hc, <- app_assoc. auto.
    + exists (errs ++ [st_error ("❌ Failed to process " ++ name file ++ ": " ++ e)])%list.
      rewrite Hu, <- app_assoc. split; [reflexivity|].
      apply Forall_app. split; [exact He|]. repeat constructor.
  - do 3 eexists. split; [reflexivity|].
    constructor; cbn; try assumption.
    + rewrite length_app. lia.
    + exists (created ++ [entry])%list. rewrite Hc, <- app_assoc. auto.
    + exists errs. auto.
Qed.

Lemma load_fold_inv (rest : list UploadedFile) :
  forall done w docs n w0,
    load_inv done w docs n w0 ->
    exists docs' n' w',
      fold_left load_file rest (docs, n, w0) = (docs', n', w')
      /\ load_inv (done ++ rest) w docs' n' w'.
Proof.
  induction rest as [|file rest IH]; intros done w docs n w0 Hinv.
  - exists docs, n, w0. now rewrite app_nil_r.
  - destruct (load_file_inv _ _ _ _ _ file Hinv) as (d1 & n1 & w1 & E & H1).
    destruct (IH _ _ _ _ _ H1) as (d' & n' & w' & E' & H').
    exists d', n', w'. cbn [fold_left]. rewrite E, E'.
    now rewrite <- app_assoc in H'.
Qed.

Lemma load_files_inv (files : list UploadedFile) (w : World) :
  exists docs n w',
    load_files files w = (docs, n, w') /\ load_inv files w docs n w'.
Proof.
  apply (load_fold_inv files [] w [] 0 w).
  constructor; try reflexivity.
  - exists []. now rewrite app_nil_r.
  - exists []. now rewrite app_nil_r.
Qed.

(** The second loop, from any of its turns on: only [db.add_documents]
    can raise, every update is sound, and a completed loop has appended
    the remaining chunks, batch by batch. *)
Lemma embed_batches_spec (all_docs : list Document) (start : Q)
    (fuel : nat) :
  forall i w res w',
    length all_docs - i <= fuel ->
    embed_batches (range_from fuel i (length all_docs) batch_size) all_docs
      (length all_docs) (Nat.min i (length all_docs)) start w = (res, w') ->
    rag_metadata w' = rag_metadata w
    /\ tmpdir w' = tmpdir w
    /\ (exists evs,
           ui w' = (ui w ++ evs)%list
           /\ Forall (update_ok (length all_docs)) evs
           /\ Forall (fun ev => is_batch_update ev = true) evs
           /\ (forall p, res = inr p ->
                 length evs
                 = length (range_from fuel i (length all_docs) batch_size)))
    /\ match res with
       | inr p =>
           p = length all_docs
           /\ index w' = (index w ++ skipn i all_docs)%list
       | inl e => exists batch, add_documents_raises batch = Some e
       end.
Proof.
  set (n := length all_docs).
  assert (Hdone : forall fuel i w res w',
             n <= i ->
             embed_batches (range_from fuel i n batch_size) all_docs n
               (Nat.min i n) start w = (res, w') ->
             rag_metadata w' = rag_metadata w
             /\ tmpdir w' = tmpdir w
             /\ (exists evs,
                    ui w' = (ui w ++ evs)%list
                    /\ Forall (update_ok n) evs
                    /\ Forall (fun ev => is_batch_update ev = true) evs
                    /\ (forall p, res = inr p ->
                          length evs
                          = length (range_from fuel i n batch_size)))
             /\ match res with
                | inr p => p = n /\ index w' = (index w ++ skipn i all_docs)%list
                | inl e => exists batch, add_documents_raises batch = Some e
                end).
  { intros f i w res w' Hi E. rewrite range_from_nil in * by exact Hi.
    cbn in E. injection E as <- <-.
    repeat split; try reflexivity.
    - exists []. rewrite app_nil_r. repeat split; constructor.
    - lia.
    - rewrite skipn_all2 by (fold n; lia). now rewrite app_nil_r. }
  induction fuel as [|fuel IH]; intros i w res w' Hf E.
  - apply (Hdone 0 i w res w'); [lia | exact E].
  - destruct (Nat.le_gt_cases n i) as [Hi | Hi];
      [apply (Hdone (S fuel) i w res w'); assumption|].
    rewrite range_from_cons in * by exact Hi.
    cbn [Ingestion.embed_batches] in E.
    destruct (add_documents_raises (slice all_docs i (i + batch_size)))
      as [e|] eqn:Eadd.
    { injection E as <- <-. repeat split; try reflexivity.
      - exists []. rewrite app_nil_r. repeat split; try constructor.
        intros p Hp. discriminate.
      - eauto. }
    pose proof (slice_length all_docs i) as Hlen. fold n in Hlen.
    set (batch := slice all_docs i (i + batch_size)) in *.
    assert (Hb : batch_size = 30) by reflexivity.
    assert (Hp : Nat.min i n + length batch = Nat.min (i + batch_size) n) by lia.
    rewrite Hp in E.
    set (p := Nat.min (i + batch_size) n) in *.
    assert (Hp1 : 1 <= p) by lia.
    assert (Hpn : p <= n) by lia.
    rewrite truediv_nonzero in E by (apply Qnat_nonzero; lia).
    cbn [read_clock fst snd] in E.
    rewrite truediv_nonzero in E by (apply Qnat_nonzero; lia).
    apply IH in E; [|lia].
    destruct E as (Hm & Ht & (evs & Hu & Hok & Hup & Hcount) & Hres).
    cbn in Hm, Ht, Hu.
    split; [exact Hm|]. split; [exact Ht|]. split.
    + eexists (_ :: evs). rewrite Hu, <- app_assoc. split; [reflexivity|].
      split; [|split].
      * constructor; [|exact Hok]. cbn [update_ok].
        split; [exact Hp1|]. split; [exact Hpn|]. split; [reflexivity|].
        split; [apply Qeq_refl|].
        rewrite Qnat_sub by exact Hpn. field. apply Qnat_nonzero. lia.
      * constructor; [reflexivity | exact Hup].
      * intros q Hq. cbn [length]. f_equal. exact (Hcount q Hq).
    + destruct res as [e | q]; [exact Hres|].
      destruct Hres as [Hq Hidx]. split; [exact Hq|].
      rewrite Hidx. cbn. rewrite <- app_assoc. f_equal.
      apply slice_then_rest.
Qed.

Lemma embed_all_spec (all_docs : list Document) (start : Q)
    (w : World) (res : Exc nat) (w' : World) :
  embed_batches (range 0 (length all_docs) batch_size) all_docs
    (length all_docs) 0 start w = (res, w') ->
  rag_metadata w' = rag_metadata w
  /\ tmpdir w' = tmpdir w
  /\ (exists evs,
         ui w' = (ui w ++ evs)%list
         /\ Forall (update_ok (length all_docs)) evs
         /\ Forall (fun ev => is_batch_update ev = true) evs
         /\ (forall p, res = inr p ->
               length evs = length (range 0 (length all_docs) batch_size)))
  /\ match res with
     | inr p => index w' = (index w ++ all_docs)%list
     | inl e => exists batch, add_documents_raises batch = Some e
     end.
Proof.
  intros E.
  destruct (embed_batches_spec all_docs start (length all_docs) 0 w res w')
    as (Hm & Ht & Hev & Hres); [lia | exact E |].
  repeat split; try assumption.
  destruct res as [e | p]; [exact Hres | apply Hres].
Qed.

(** The two ways through [process_and_add_files] after the first loop. *)
Lemma process_cases (files : list UploadedFile) (w : World) :
  exists w1,
    load_files files w = (loaded_chunks files w, length (loaded_chunks files w), w1)
    /\ load_inv files w (loaded_chunks files w)
         (length (loaded_chunks files w)) w1
    /\ ((loaded_chunks files w = []
         /\ process_and_add_files files w
            = (inr "No chunks to embed.",
               emit (st_warning "⚠️ No valid text found in uploaded documents.") w1))
        \/ (loaded_chunks files w <> []
            /\ exists res w3,
                embed_batches
                  (range 0 (length (loaded_chunks files w)) batch_size)
                  (loaded_chunks files w) (length (loaded_chunks files w)) 0
                  (time_time (ticks w1))
                  (snd (read_clock time_time (emit progress_start w1)))
                = (res, w3)
                /\ process_and_add_files files w
                   = match res with
                     | inl e => (inl e, w3)
                     | inr _ =>
                         (inr ("✅ Added "
                               ++ format_nat (length (loaded_chunks files w))
                               ++ " chunks to the vector database."),
                          clean_temp_files
                            (write_metadata
                               (mkMetadata (map name files)
                                  (strftime (ticks (emit progress_done w3)))
                                  (length (loaded_chunks files w)))
                               (emit progress_done w3)))
                     end)).
Proof.
  unfold Ingestion.process_and_add_files, Ingestion.loaded_chunks.
  destruct (load_files_inv files w) as (docs & n & w1 & El & Hinv).
  rewrite El. cbn [fst snd].
  pose proof (inv_total _ _ _ _ _ Hinv) as Hn. subst n.
  exists w1. split; [reflexivity|]. split; [exact Hinv|].
  destruct docs as [|d docs]; [left; split; reflexivity|].
  right. split; [discriminate|].
  remember (d :: docs) as all_docs eqn:Ed.
  replace (length all_docs =? 0)%nat with false
    by (symmetry; apply Nat.eqb_neq; subst all_docs; cbn; lia).
  cbn [read_clock fst snd emit ticks].
  destruct (embed_batches _ _ _ _ _ _) as [res w3] eqn:E.
  exists res, w3. split; [reflexivity|].
  destruct res; reflexivity.
Qed.

(** C1, as amended.  After a run that completes with at least one chunk
    to embed, the index holds the chunks of the run appended to what it
    held, [total_chunks] of the written record is their number, and
    [files] is the list of the names of all the files handed to the run,
    in order, whether or not their loading succeeded.  Files that come
    from the upload page are uploads that are not zip archives or archive
    members whose names end in .pdf or .txt. *)
Theorem C1_metadata_after_successful_run (files : list UploadedFile)
    (w : World) (msg : string) (w' : World) :
  loaded_chunks files w <> [] ->
  process_and_add_files files w = (inr msg, w') ->
  (exists meta,
      rag_metadata w' = Some meta
      /\ index w' = (index w ++ loaded_chunks files w)%list
      /\ total_chunks meta = length (loaded_chunks files w)
      /\ Ingestion.files meta = map name files)
  /\ (forall read_zip uploaded_files,
         files = DatabaseManager.files_for_embedding read_zip uploaded_files ->
         Forall
           (fun f =>
              (In f uploaded_files /\ endswith (lower (name f)) ".zip" = false)
              \/ (exists member,
                     DatabaseManager.eligible member = true
                     /\ name f = basename member))
           files).
Proof.
  intros Hne Hrun. split.
  - destruct (process_cases files w) as (w1 & _ & Hinv & [[He _] | (_ & res & w3 & E & Hp)]);
      [contradiction|].
    rewrite Hp in Hrun.
    destruct (embed_all_spec _ _ _ _ _ E) as (_ & _ & _ & Hres).
    destruct res as [e | p]; [discriminate|].
    injection Hrun as _ <-.
    eexists. split; [reflexivity|]. cbn.
    rewrite Hres. cbn. rewrite (inv_index _ _ _ _ _ Hinv). auto.
  - intros read_zip uploaded_files ->. apply Forall_forall.
    intros f Hf.
    now apply (DatabaseManagerFacts.files_for_embedding_origin read_zip).
Qed.

(** C3. When the loaded documents give no chunk, the run returns the
    message "No chunks to embed." as a value, after a warning; the index
    and the metadata record are what they were before the run. *)
Theorem C3_zero_chunks_no_mutation (files : list UploadedFile) (w : World) :
  loaded_chunks files w = [] ->
  exists w',
    process_and_add_files files w = (inr "No chunks to embed.", w')
    /\ index w' = index w
    /\ rag_metadata w' = rag_metadata w
    /\ exists errs,
        ui w'
        = (ui w ++ errs
           ++ [st_warning "⚠️ No valid text found in uploaded documents."])%list
        /\ Forall (fun ev => is_batch_update ev = false) errs.
Proof.
  intros Hz.
  destruct (process_cases files w) as (w1 & _ & Hinv & [[_ Hp] | [Hne _]]);
    [|contradiction].
  eexists. split; [exact Hp|]. cbn.
  destruct Hinv as [_ Hi Hm _ _ (errs & Hu & He)].
  repeat split; try assumption.
  exists errs. rewrite Hu, <- app_assoc. auto.
Qed.

(** In every run, the only exception that can leave the embedding loop is
    one raised by [db.add_documents]; every update shown has at least one
    processed chunk and the stated estimate, and a run that completes has
    shown one update per batch. *)
Lemma progress_updates_are_sound (files : list UploadedFile)
    (w : World) (res : Exc string) (w' : World) :
  process_and_add_files files w = (res, w') ->
  (forall e, res = inl e -> exists batch, add_documents_raises batch = Some e)
  /\ exists evs,
      ui w' = (ui w ++ evs)%list
      /\ Forall (update_ok (length (loaded_chunks files w))) evs
      /\ (forall msg, res = inr msg ->
            length (filter is_batch_update evs)
            = length (range 0 (length (loaded_chunks files w)) batch_size)).
Proof.
  intros Hrun.
  destruct (process_cases files w) as (w1 & _ & Hinv & Hcase).
  destruct Hinv as [_ _ _ _ _ (errs & Hu & He)].
  assert (Hquiet : forall l, Forall (fun ev => is_batch_update ev = false) l ->
             filter is_batch_update l = []
             /\ Forall (update_ok (length (loaded_chunks files w))) l).
  { induction 1 as [|ev l Hev _ [IH1 IH2]]; [split; constructor|].
    cbn. rewrite Hev. split; [exact IH1|].
    constructor; [|exact IH2]. destruct ev; try exact I. discriminate. }
  assert (Hloud : forall l, Forall (fun ev => is_batch_update ev = true) l ->
             filter is_batch_update l = l).
  { induction 1 as [|ev l Hev _ IH]; [reflexivity|].
    cbn. now rewrite Hev, IH. }
  destruct (Hquiet errs He) as [Hfe Hoe].
  destruct Hcase as [[Hz Hp] | (_ & r & w3 & E & Hp)]; rewrite Hp in Hrun.
  - injection Hrun as <- <-. split; [discriminate|].
    exists (errs ++ [st_warning "⚠️ No valid text found in uploaded documents."])%list.
    cbn. rewrite Hu, <- app_assoc. split; [reflexivity|]. split.
    + apply Forall_app. split; [exact Hoe|]. repeat constructor.
    + intros _ _. rewrite filter_app, Hfe, Hz. reflexivity.
  - destruct (embed_all_spec _ _ _ _ _ E) as (_ & _ & (evs & Hv & Hok & Hup & Hcount) & Hres).
    cbn in Hv. rewrite Hu in Hv.
    destruct r as [e | p].
    + injection Hrun as <- <-. split.
      * intros e' He'. injection He' as <-. exact Hres.
      * exists (errs ++ progress_start :: evs)%list.
        rewrite Hv, <- !app_assoc. split; [reflexivity|]. split.
        -- apply Forall_app. split; [exact Hoe|].
           constructor; [exact I | exact Hok].
        -- intros msg Hmsg. discriminate.
    + injection Hrun as <- <-. split; [discriminate|].
      exists (errs ++ progress_start :: evs ++ [progress_done])%list.
      cbn [clean_temp_files write_metadata emit ui].
      rewrite Hv, <- !app_assoc. split; [reflexivity|]. split.
      * apply Forall_app. split; [exact Hoe|].
        constructor; [exact I|].
        apply Forall_app. split; [exact Hok | repeat constructor].
      * intros msg _. rewrite filter_app, Hfe. cbn [filter is_batch_update app].
        rewrite filter_app, (Hloud evs Hup). cbn.
        rewrite app_nil_r. exact (Hcount p eq_refl).
Qed.

Lemma firstn_add {A : Type} (a b : nat) :
  forall l : list A, firstn (a + b) l = (firstn a l ++ firstn b (skipn a l))%list.
Proof.
  induction a as [|a IH]; intros l; [reflexivity|].
  destruct l as [|x l]; cbn; [now rewrite firstn_nil | now rewrite IH].
Qed.






(** The zero-chunk return leaves in the temporary directory one file per
    uploaded file. *)
Lemma zero_chunk_return_keeps_temp_files (files : list UploadedFile)
    (w : World) :
  loaded_chunks files w = [] ->
  exists w' created,
    process_and_add_files files w = (inr "No chunks to embed.", w')
    /\ tmpdir w' = (tmpdir w ++ created)%list
    /\ length created = length files
    /\ Forall (fun e => globbed e = true /\ removable e = true) created.
Proof.
  intros Hz.
  destruct (process_cases files w) as (w1 & _ & Hinv & [[_ Hp] | [Hne _]]);
    [|contradiction].
  destruct Hinv as [_ _ _ _ (created & Hc & Hl & Hf) _].
  exists (emit (st_warning "⚠️ No valid text found in uploaded documents.") w1),
    created.
  auto.
Qed.

(** The completed run removes every file that [glob] lists and
    [os.remove] can delete, its own temporary files among them. *)
Lemma completed_run_cleans_temp_files (files : list UploadedFile)
    (w : World) (msg : string) (w' : World) :
  loaded_chunks files w <> [] ->
  process_and_add_files files w = (inr msg, w') ->
  Forall (fun e => globbed e && removable e = false) (tmpdir w').
Proof.
  intros Hne Hrun.
  destruct (process_cases files w) as (w1 & _ & _ & [[He _] | (_ & res & w3 & E & Hp)]);
    [contradiction|].
  rewrite Hp in Hrun. destruct res as [e | p]; [discriminate|].
  injection Hrun as _ <-. cbn.
  apply Forall_forall. intros e He. apply filter_In in He as [_ He].
  now apply negb_true_iff in He.
Qed.

End WithCollaborators.

End IngestionFacts.

(* ================================================================= *)
(** ** Worked runs of the ingestion *)

Module IngestionExamples.
Import PyStr Retrieval Ingestion IngestionFacts.

(** C1 as stated fails on this run: the record lists a file whose loading
    failed, so [files] is not the list of the accepted members. *)
Lemma C1_failed_file_listed_counterexample :
  exists msg w' meta,
    Demo.ingest Demo.mixed_files Demo.world0 = (inr msg, w')
    /\ length (index w') = 1
    /\ rag_metadata w' = Some meta
    /\ total_chunks meta = 1
    /\ files meta = ["bad.pdf"; "good.txt"]
    /\ accepted_filenames Demo.pdf_load Demo.text_load Demo.mixed_files
         Demo.world0 = ["good.txt"]
    /\ files meta
       <> accepted_filenames Demo.pdf_load Demo.text_load Demo.mixed_files
            Demo.world0.
Proof.
  do 3 eexists. split; [vm_compute; reflexivity|].
  repeat split. vm_compute. discriminate.
Qed.

Lemma C1_metadata_witness :
  (exists meta,
      rag_metadata (snd (Demo.ingest Demo.mixed_files Demo.world0)) = Some meta
      /\ index (snd (Demo.ingest Demo.mixed_files Demo.world0))
         = (index Demo.world0
            ++ loaded_chunks Demo.pdf_load Demo.text_load
                 Chunker.split_documents Demo.mixed_files Demo.world0)%list
      /\ total_chunks meta
         = length (loaded_chunks Demo.pdf_load Demo.text_load
                     Chunker.split_documents Demo.mixed_files Demo.world0)
      /\ files meta = map name Demo.mixed_files)
  /\ (forall read_zip uploaded_files,
         Demo.mixed_files
         = DatabaseManager.files_for_embedding read_zip uploaded_files ->
         Forall
           (fun f =>
              (In f uploaded_files /\ endswith (lower (name f)) ".zip" = false)
              \/ (exists member,
                     DatabaseManager.eligible member = true
                     /\ name f = basename member))
           Demo.mixed_files).
Proof.
  apply (C1_metadata_after_successful_run Demo.pdf_load Demo.text_load
           Chunker.split_documents Demo.add_ok Demo.clock Demo.stamp
           Demo.mixed_files Demo.world0
           "✅ Added 1 chunks to the vector database.").
  - vm_compute. discriminate.
  - vm_compute. reflexivity.
Defined.

(** C2. The temporary files survive two of the three ways out of the run.
    On the zero-chunk return, and when [db.add_documents] raises, the file
    written for the upload is still in the temporary directory; only the
    completed run reaches the clean-up and leaves the directory empty. *)
Theorem C2_temp_files_left_behind :
  (fst (Demo.ingest Demo.empty_files Demo.world0) = inr "No chunks to embed."
   /\ tmpdir (snd (Demo.ingest Demo.empty_files Demo.world0))
      = [mkTmpEntry "tmp0.txt" true])
  /\ (fst (Demo.ingest_failing Demo.good_files Demo.world0)
      = inl "embedding backend unavailable"
      /\ tmpdir (snd (Demo.ingest_failing Demo.good_files Demo.world0))
         = [mkTmpEntry "tmp0.txt" true])
  /\ (fst (Demo.ingest Demo.good_files Demo.world0)
      = inr "✅ Added 1 chunks to the vector database."
      /\ tmpdir (snd (Demo.ingest Demo.good_files Demo.world0)) = []).
Proof. vm_compute. repeat split. Qed.

Lemma C3_zero_chunks_witness :
  exists w',
    Demo.ingest Demo.empty_files Demo.world0 = (inr "No chunks to embed.", w')
    /\ index w' = index Demo.world0
    /\ rag_metadata w' = rag_metadata Demo.world0
    /\ exists errs,
        ui w'
        = (ui Demo.world0 ++ errs
           ++ [st_warning "⚠️ No valid text found in uploaded documents."])%list
        /\ Forall (fun ev => is_batch_update ev = false) errs.
Proof.
  apply (C3_zero_chunks_no_mutation Demo.pdf_load Demo.text_load
           Chunker.split_documents Demo.add_ok Demo.clock Demo.stamp
           Demo.empty_files Demo.world0).
  reflexivity.
Defined.


(** The same on the run of 31 chunks whose second batch is refused: one
    batch embedded, one update, and the exception of the second batch. *)
Example refused_second_batch :
  Demo.ingest_picky Demo.big_files Demo.world0
  = (inl "batch refused",
     mkWorld (firstn 30 (loaded_chunks Demo.pdf_load Demo.text_load
                           Chunker.split_documents Demo.big_files Demo.world0))
       None [mkTmpEntry "tmp0.txt" true] 1 2
       [progress_start; batch_update 30 31 (30 # 31) 1 (1 # 30)]).
Proof. vm_compute. reflexivity. Qed.

(** A run of 31 chunks: two batches, two updates, after 30 and 31 chunks. *)
Example two_batches_run :
  ui (snd (Demo.ingest Demo.big_files Demo.world0))
  = [progress_start;
     batch_update 30 31 (30 # 31) 1 (1 # 30);
     batch_update 31 31 (31 # 31) 2 (0 # 31);
     progress_done]
  /\ length (index (snd (Demo.ingest Demo.big_files Demo.world0))) = 31
  /\ option_map total_chunks
       (rag_metadata (snd (Demo.ingest Demo.big_files Demo.world0))) = Some 31.
Proof. vm_compute. repeat split. Qed.

End IngestionExamples.

(* ================================================================= *)
(** ** Worked requests to the router *)

Module AppExamples.
Import PyStr App AppFacts.

Lemma C6_stripped_prompt_witness :
  adapter_receives Demo.completion_echo Demo.generate_echo Demo.rag_fixed
    (Demo.ask "ChatGPT" true (Some "chroma_dbs/docs"))
    ("Use the following context to answer:" ++ LF ++ LF ++ "CTX"
     ++ LF ++ LF ++ "Question: "
     ++ strip (prompt (Demo.ask "ChatGPT" true (Some "chroma_dbs/docs"))))
  /\ adapter_receives Demo.completion_echo Demo.generate_echo Demo.rag_fixed
       (Demo.ask "ChatGPT" true None)
       (strip (prompt (Demo.ask "ChatGPT" true None))).
Proof.
  split.
  - refine (proj1 (C6_adapter_receives_stripped_prompt Demo.completion_echo
                     Demo.generate_echo Demo.rag_fixed
                     (Demo.ask "ChatGPT" true (Some "chroma_dbs/docs")) _ _)
              "chroma_dbs/docs" "CTX" _ _ _).
    + split; discriminate.
    + reflexivity.
    + reflexivity.
    + discriminate.
    + reflexivity.
  - refine (proj2 (C6_adapter_receives_stripped_prompt Demo.completion_echo
                     Demo.generate_echo Demo.rag_fixed
                     (Demo.ask "ChatGPT" true None) _ _) _).
    + split; discriminate.
    + reflexivity.
    + left. reflexivity.
Defined.

(** The prompt of the example request is [" What is RAG? "], with a space on
    either side.  A provider that echoes its prompt shows that neither the
    template around that prompt as the request carries it, nor that prompt
    itself when no store path is given, is what the adapter is called
    with. *)
Lemma C6_unstripped_prompt_counterexample :
  ~ adapter_receives Demo.completion_echo Demo.generate_echo Demo.rag_fixed
      (Demo.ask "ChatGPT" true (Some "chroma_dbs/docs"))
      ("Use the following context to answer:" ++ LF ++ LF ++ "CTX"
       ++ LF ++ LF ++ "Question: "
       ++ prompt (Demo.ask "ChatGPT" true (Some "chroma_dbs/docs")))
  /\ ~ adapter_receives Demo.completion_echo Demo.generate_echo Demo.rag_fixed
         (Demo.ask "ChatGPT" true None)
         (prompt (Demo.ask "ChatGPT" true None)).
Proof.
  split; intros (_ & _ & H); specialize (H eq_refl);
    vm_compute in H; discriminate H.
Qed.

(** What the echoing provider is sent on the two requests. *)
Example echoed_prompts :
  response
    (query_llm Demo.completion_echo Demo.generate_echo Demo.rag_fixed
       (Demo.ask "ChatGPT" true (Some "chroma_dbs/docs")))
  = "Use the following context to answer:" ++ LF ++ LF ++ "CTX" ++ LF ++ LF
    ++ "Question: What is RAG?"
  /\ response
       (query_llm Demo.completion_echo Demo.generate_echo Demo.rag_fixed
          (Demo.ask "ChatGPT" true None))
     = "What is RAG?".
Proof. split; vm_compute; reflexivity. Qed.

(** The prompt of the example request, as the endpoint holds it. *)
Example ask_prompt_trimmed :
  strip (prompt (Demo.ask "ChatGPT" true None)) = "What is RAG?".
Proof. reflexivity. Qed.

Lemma C8_empty_output_witness :
  success (query_llm Demo.completion_empty Demo.generate_empty Demo.rag_fixed
             (Demo.ask "Gemini" false None)) = false
  /\ response (query_llm Demo.completion_empty Demo.generate_empty
                 Demo.rag_fixed (Demo.ask "Gemini" false None)) = ""
  /\ exists m,
       error_message (query_llm Demo.completion_empty Demo.generate_empty
                        Demo.rag_fixed (Demo.ask "Gemini" false None)) = Some m
       /\ m <> "".
Proof.
  apply (proj1 (C8_empty_output_is_failure Demo.completion_empty
                  Demo.generate_empty Demo.rag_fixed)
           (Demo.ask "Gemini" false None) "What is RAG?").
  - split; discriminate.
  - reflexivity.
  - right. left. split; reflexivity.
Defined.

Lemma C10_well_formed_witness :
  well_formed (query_llm Demo.completion_empty Demo.generate_empty
                 Demo.rag_fixed (Demo.ask "Claude" false None)).
Proof.
  apply (C10_response_well_formed Demo.completion_empty Demo.generate_empty
           Demo.rag_fixed (Demo.ask "Claude" false None)).
Defined.

(** An empty completion of the OpenAI-compatible providers comes back with
    the default message of the endpoint. *)
Example empty_completion_answer :
  query_llm Demo.completion_empty Demo.generate_empty Demo.rag_fixed
    (Demo.ask "DeepSeek" false None)
  = mkLLMResponse "" false (Some "No valid response generated.").
Proof. reflexivity. Qed.

End AppExamples.

(* ================================================================= *)
(** ** More on the endpoint *)

Module BackendFacts.
Import PyStr PyStrFacts App AppFacts Backend.

Lemma space_units_encode : map utf8 whitespace_code_points = space_units.
Proof. vm_compute. reflexivity. Qed.

Lemma space_unit_iff (u : string) :
  is_space_unit u = true <-> exists cp, In cp whitespace_code_points /\ utf8 cp = u.
Proof.
  unfold is_space_unit. rewrite existsb_exists, <- space_units_encode. split.
  - intros (v & Hv & E). apply String.eqb_eq in E. subst v.
    apply in_map_iff in Hv as (cp & E & Hcp). now exists cp.
  - intros (cp & Hcp & E). exists u. split; [|apply String.eqb_refl].
    apply in_map_iff. now exists cp.
Qed.

Lemma blank_unit (u s : string) :
  is_space_unit u = true -> blank s -> blank (u ++ s).
Proof.
  intros Hu Hs. apply space_unit_iff in Hu as (cp & Hcp & <-).
  now constructor.
Qed.

Lemma blank_app (a b : string) : blank a -> blank b -> blank (a ++ b).
Proof.
  induction 1 as [|cp s Hcp _ IH]; intros Hb; [exact Hb|].
  rewrite append_assoc. constructor; auto.
Qed.

Lemma lstrip_unit (u : string) :
  In u space_units -> forall rest, lstrip (u ++ rest) = lstrip rest.
Proof.
  unfold space_units. cbn [map app In]. intros H rest.
  repeat (destruct H as [<- | H]; [reflexivity|]). destruct H.
Qed.

Lemma lstrip_blank (s : string) : blank s -> lstrip s = "".
Proof.
  induction 1 as [|cp s Hcp _ IH]; [reflexivity|].
  rewrite lstrip_unit; [exact IH|].
  rewrite <- space_units_encode. now apply in_map.
Qed.

(** [lstrip] takes white space off the front, and nothing else. *)
Lemma lstrip_removes_blank (n : nat) :
  forall s, String.length s <= n -> exists w, blank w /\ s = w ++ lstrip s.
Proof.
  induction n as [|n IH]; intros s Hn.
  - destruct s; [|cbn in Hn; lia]. exists "". split; [constructor | reflexivity].
  - assert (Hstay : lstrip s = s -> exists w, blank w /\ s = w ++ lstrip s).
    { intros E. exists "". rewrite E. split; [constructor | reflexivity]. }
    destruct s as [|a s1]; [now apply Hstay|]. cbn in Hn.
    cbn [lstrip] in *.
    destruct (is_space_unit (String a "")) eqn:E1.
    { destruct (IH s1) as (w & Hw & E); [lia|].
      exists (String a "" ++ w). split; [now apply blank_unit|].
      cbn. now rewrite <- E. }
    destruct s1 as [|b s2]; [now apply Hstay|]. cbn in Hn.
    destruct (is_space_unit (String a (String b ""))) eqn:E2.
    { destruct (IH s2) as (w & Hw & E); [lia|].
      exists (String a (String b "") ++ w). split; [now apply blank_unit|].
      cbn. now rewrite <- E. }
    destruct s2 as [|c s3]; [now apply Hstay|]. cbn in Hn.
    destruct (is_space_unit (String a (String b (String c "")))) eqn:E3;
      [|now apply Hstay].
    destruct (IH s3) as (w & Hw & E); [lia|].
    exists (String a (String b (String c "")) ++ w).
    split; [now apply blank_unit|]. cbn. now rewrite <- E.
Qed.

(** [rstrip] takes white space off the end, and nothing else. *)
Lemma rstrip_removes_blank (s : string) :
  exists w, blank w /\ s = rstrip s ++ w.
Proof.
  induction s as [|c s (w & Hw & E)].
  - exists "". split; [constructor | reflexivity].
  - cbn [rstrip]. destruct (is_space_unit (String c (rstrip s))) eqn:Eu.
    + exists (String c (rstrip s) ++ w). split; [now apply blank_unit|].
      cbn. now rewrite <- E.
    + exists w. split; [exact Hw|]. cbn. now rewrite <- E.
Qed.

Lemma strip_blank_iff (s : string) : strip s = "" <-> blank s.
Proof.
  unfold strip. split.
  - intros H.
    destruct (lstrip_removes_blank (String.length s) s) as (w1 & Hw1 & E1); [lia|].
    destruct (rstrip_removes_blank (lstrip s)) as (w2 & Hw2 & E2).
    rewrite H in E2. cbn in E2. rewrite E1, E2. now apply blank_app.
  - intros H. now rewrite lstrip_blank.
Qed.

Lemma parse_api_error_nonempty (provider error : string) :
  parse_api_error provider error <> "".
Proof.
  unfold parse_api_error.
  destruct (_ || _); [discriminate|]. destruct (_ || _); discriminate.
Qed.

Lemma system_for_nonempty (request : LLMRequest) :
  truthy (system_for request) = true.
Proof.
  apply truthy_true. unfold system_for.
  destruct (format_opt (system_message request)); discriminate.
Qed.

Section WithProviders.
Variable chat_completions_create :
  string -> option string -> string -> list Message -> option Z -> option Q ->
  Exc (option string).
Variable generate_content : string -> string -> string -> Exc string.
Variable query_rag : string -> string -> Exc string.

Local Abbreviation route := (App.route chat_completions_create generate_content).
Local Abbreviation query_llm :=
  (App.query_llm chat_completions_create generate_content query_rag).
Local Abbreviation apply_rag := (App.apply_rag query_rag).

(** X1. A request whose API key is empty or made of whitespace only is
    answered with "API key is required", whatever its other fields; with a
    usable key and a prompt that is empty or made of whitespace only, it is
    answered with "Prompt cannot be empty". *)
Theorem X1_blank_key_or_prompt_rejected (request : LLMRequest) :
  (blank (api_key request) ->
   query_llm request = mkLLMResponse "" false (Some "❌ API key is required."))
  /\ (~ blank (api_key request) -> blank (prompt request) ->
      query_llm request
      = mkLLMResponse "" false (Some "❌ Prompt cannot be empty.")).
Proof.
  unfold App.query_llm. split.
  - intros Hk. apply strip_blank_iff in Hk. now rewrite Hk.
  - intros Hk Hp. apply strip_blank_iff in Hp.
    assert (Hk' : truthy (strip (api_key request)) = true).
    { apply truthy_true. intros E. apply Hk. now apply strip_blank_iff. }
    now rewrite Hk', Hp.
Qed.

(** X2. A valid request whose model name is none of "DeepSeek", "Gemini" and
    "ChatGPT" (names are compared as written, letter case included) is
    answered with the failure "Unknown model: <name>" once the RAG step has
    passed. *)
Theorem X2_unknown_model_rejected (request : LLMRequest) (p : string) :
  valid request ->
  apply_rag request (strip (prompt request)) = inr p ->
  model_name request <> "DeepSeek" ->
  model_name request <> "Gemini" ->
  model_name request <> "ChatGPT" ->
  query_llm request
  = mkLLMResponse "" false (Some ("❌ Unknown model: " ++ model_name request)).
Proof.
  intros Hv Hr H1 H2 H3.
  rewrite (query_llm_routed _ _ _ request p Hv Hr). unfold App.route.
  apply String.eqb_neq in H1, H2, H3. now rewrite H1, H2, H3.
Qed.

(** X5. When the client of the chosen provider raises, the endpoint answers
    with a failure whose message is [parse_api_error] of the exception, under
    the label "DeepSeek", "Gemini" or, for the model "ChatGPT", "OpenAI". *)
Theorem X5_provider_exception_classified (request : LLMRequest) (p : string) :
  valid request ->
  apply_rag request (strip (prompt request)) = inr p ->
  (forall e,
      model_name request = "DeepSeek" ->
      chat_completions_create (api_key request)
        (Some settings.deepseek_base_url) settings.deepseek_model
        (build_messages p (system_for request) (chat_history request))
        (max_tokens request) (temperature request) = inl e ->
      query_llm request
      = mkLLMResponse "" false (Some (parse_api_error "DeepSeek" e)))
  /\ (forall e,
         model_name request = "Gemini" ->
         generate_content (api_key request) settings.gemini_model
           (gemini_full_prompt p (system_for request) (chat_history request))
         = inl e ->
         query_llm request
         = mkLLMResponse "" false (Some (parse_api_error "Gemini" e)))
  /\ (forall e,
         model_name request = "ChatGPT" ->
         chat_completions_create (api_key request) None settings.openai_model
           (build_messages p (system_for request) (chat_history request))
           (max_tokens request) (temperature request) = inl e ->
         query_llm request
         = mkLLMResponse "" false (Some (parse_api_error "OpenAI" e))).
Proof.
  intros Hv Hr. rewrite (query_llm_routed _ _ _ request p Hv Hr).
  assert (Hor : forall l e,
             or_else (Some (parse_api_error l e)) "No valid response generated."
             = parse_api_error l e).
  { intros l e. cbn [or_else].
    pose proof (parse_api_error_nonempty l e) as H.
    apply truthy_true in H. now rewrite H. }
  repeat split; intros e Hm Hc.
  - rewrite (route_deepseek _ _ _ _ _ Hm). unfold get_deepseek_llm.
    rewrite Hc. unfold finish. now rewrite Hor.
  - rewrite (route_gemini _ _ _ _ _ Hm). unfold get_gemini_llm.
    rewrite Hc. unfold finish. now rewrite Hor.
  - rewrite (route_chatgpt _ _ _ _ _ Hm). unfold get_openai_llm.
    rewrite Hc. unfold finish. now rewrite Hor.
Qed.

(** X6. When the chosen provider returns a non-empty text, the endpoint
    answers with [success = true], no error message and that text as it came,
    without trimming. *)
Theorem X6_provider_text_returned_verbatim (request : LLMRequest)
    (p text : string) :
  valid request ->
  apply_rag request (strip (prompt request)) = inr p ->
  text <> "" ->
  (model_name request = "DeepSeek" ->
   chat_completions_create (api_key request)
     (Some settings.deepseek_base_url) settings.deepseek_model
     (build_messages p (system_for request) (chat_history request))
     (max_tokens request) (temperature request) = inr (Some text) ->
   query_llm request = mkLLMResponse text true None)
  /\ (model_name request = "Gemini" ->
      generate_content (api_key request) settings.gemini_model
        (gemini_full_prompt p (system_for request) (chat_history request))
      = inr text ->
      query_llm request = mkLLMResponse text true None)
  /\ (model_name request = "ChatGPT" ->
      chat_completions_create (api_key request) None settings.openai_model
        (build_messages p (system_for request) (chat_history request))
        (max_tokens request) (temperature request) = inr (Some text) ->
      query_llm request = mkLLMResponse text true None).
Proof.
  intros Hv Hr Ht. rewrite (query_llm_routed _ _ _ request p Hv Hr).
  apply truthy_true in Ht.
  repeat split; intros Hm Hc.
  - rewrite (route_deepseek _ _ _ _ _ Hm). unfold get_deepseek_llm.
    rewrite Hc. unfold finish. cbn [andb]. now rewrite Ht.
  - rewrite (route_gemini _ _ _ _ _ Hm). unfold get_gemini_llm.
    rewrite Hc, Ht. unfold finish. cbn [andb]. now rewrite Ht.
  - rewrite (route_chatgpt _ _ _ _ _ Hm). unfold get_openai_llm.
    rewrite Hc. unfold finish. cbn [andb]. now rewrite Ht.
Qed.

(** X7. The message list built for DeepSeek and ChatGPT always starts with
    the system message of the request followed by the safety instruction,
    even when the request has no system message; the history follows in
    order and the prompt comes last, as a user message. *)
Theorem X7_messages_system_history_prompt (request : LLMRequest) (p : string) :
  build_messages p (system_for request) (chat_history request)
  = (mkMessage "system"
       (format_opt (system_message request) ++ LF ++ LF ++ safe_instruction)
     :: chat_history request ++ [mkMessage "user" p])%list.
Proof.
  unfold build_messages. now rewrite system_for_nonempty.
Qed.

End WithProviders.

Section WithTwoRetrievals.
Variable chat_completions_create :
  string -> option string -> string -> list Message -> option Z -> option Q ->
  Exc (option string).
Variable generate_content : string -> string -> string -> Exc string.

(** X8. Without [use_rag], or with a store path that is missing or empty,
    the answer of the endpoint does not depend on the retrieval engine: it
    is not consulted. *)
Theorem X8_no_retrieval_without_rag
    (query_rag1 query_rag2 : string -> string -> Exc string)
    (request : LLMRequest) :
  use_rag request = false \/ truthy_opt (db_path request) = false ->
  App.query_llm chat_completions_create generate_content query_rag1 request
  = App.query_llm chat_completions_create generate_content query_rag2 request.
Proof.
  intros H. unfold App.query_llm, App.apply_rag.
  destruct H as [H | H]; rewrite H; [reflexivity|].
  destruct (use_rag request); reflexivity.
Qed.

(** X9. For the model "Gemini" the answer of the endpoint does not depend on
    [temperature] and [max_tokens]: they are not passed to the adapter. *)
Theorem X9_gemini_ignores_generation_parameters
    (query_rag : string -> string -> Exc string) (request : LLMRequest)
    (temperature : option Q) (max_tokens : option Z) :
  model_name request = "Gemini" ->
  App.query_llm chat_completions_create generate_content query_rag
    (with_generation request temperature max_tokens)
  = App.query_llm chat_completions_create generate_content query_rag request.
Proof.
  intros Hm. unfold App.query_llm, App.apply_rag, App.route.
  cbn [with_generation model_name api_key prompt system_message chat_history
         use_rag db_path].
  rewrite Hm. reflexivity.
Qed.

End WithTwoRetrievals.

Section WithIndex.
Variable chat_completions_create :
  string -> option string -> string -> list Message -> option Z -> option Q ->
  Exc (option string).
Variable generate_content : string -> string -> string -> Exc string.
Variable similarity_search :
  string -> string -> nat -> Exc (list Retrieval.Document).

(** X3. With RAG requested and a store path given, when the index raises
    (it cannot be opened, or the search fails), a valid request is answered
    with the failure "RAG Error: Could not retrieve context", carrying the
    text of the exception, whatever the model and the providers. *)
Theorem X3_retrieval_failure_reported (request : LLMRequest)
    (path e : string) :
  valid request ->
  use_rag request = true ->
  db_path request = Some path -> path <> "" ->
  similarity_search path (strip (prompt request)) default_k = inl e ->
  endpoint chat_completions_create generate_content similarity_search request
  = mkLLMResponse "" false
      (Some ("⚠️ RAG Error: Could not retrieve context. Details: " ++ e)).
Proof.
  intros [Hk Hp] Hrag Hdb Hne Hs.
  apply truthy_true in Hk. apply truthy_true in Hp. apply truthy_true in Hne.
  unfold endpoint, App.query_llm, App.apply_rag, Retrieval.query_rag.
  rewrite Hk, Hp, Hrag, Hdb. cbn [negb truthy_opt format_opt].
  now rewrite Hne, Hs.
Qed.

(** The endpoint is [query_llm] run with the imported [query_rag]. *)
Lemma endpoint_imports_query_rag (request : LLMRequest) :
  endpoint chat_completions_create generate_content similarity_search request
  = App.query_llm chat_completions_create generate_content
      (imported_query_rag similarity_search) request.
Proof. reflexivity. Qed.

(** X4. With RAG requested and a store path given, the endpoint searches the
    store for the stripped prompt with k = 3, and the adapter of the
    request's model is called with the template around the texts found,
    joined by blank lines in index order, and the stripped prompt; when
    nothing is found the prompt is still rewritten, around an empty
    context. *)
Theorem X4_retrieved_context_reaches_adapter (request : LLMRequest)
    (path : string) (results : list Retrieval.Document) :
  valid request ->
  use_rag request = true ->
  db_path request = Some path -> path <> "" ->
  similarity_search path (strip (prompt request)) 3 = inr results ->
  App.adapter_receives chat_completions_create generate_content
    (imported_query_rag similarity_search) request
    ("Use the following context to answer:" ++ LF ++ LF
     ++ Retrieval.blank_line_joined (map Retrieval.page_content results)
     ++ LF ++ LF ++ "Question: " ++ strip (prompt request)).
Proof.
  intros [Hk Hp] Hrag Hdb Hne Hs.
  apply AppFacts.routed_prompt_received.
  apply truthy_true in Hk. apply truthy_true in Hp. apply truthy_true in Hne.
  unfold imported_query_rag, App.query_llm, App.apply_rag,
    Retrieval.query_rag, default_k.
  rewrite Hk, Hp, Hrag, Hdb. cbn [negb truthy_opt format_opt].
  rewrite Hne, Hs. cbn [negb].
  now rewrite RetrievalFacts.join_blank_lines.
Qed.

End WithIndex.

End BackendFacts.

(* ================================================================= *)
(** ** More on the ingestion run *)

Module IngestionMore.
Import PyStr PyStrFacts Retrieval Ingestion IngestionNotions IngestionFacts.

Lemma range_from_length (fuel : nat) :
  forall i n, n - i <= fuel ->
    length (range_from fuel i n batch_size) = (n - i + 29) / 30.
Proof.
  induction fuel as [|fuel IH]; intros i n Hf.
  - replace (n - i) with 0 by lia. reflexivity.
  - destruct (Nat.le_gt_cases n i) as [Hi | Hi].
    + rewrite range_from_nil by exact Hi.
      replace (n - i) with 0 by lia. reflexivity.
    + rewrite range_from_cons by exact Hi. cbn [length].
      rewrite IH by (unfold batch_size; lia). unfold batch_size.
      destruct (Nat.le_gt_cases 30 (n - i)) as [Hb | Hb].
      * replace (n - i + 29) with (n - (i + 30) + 29 + 1 * 30) by lia.
        rewrite Nat.div_add by lia. lia.
      * replace (n - (i + 30)) with 0 by lia.
        change ((0 + 29) / 30) with 0.
        apply (Nat.div_unique _ _ _ (n - i - 1)); lia.
Qed.

Lemma range_from_slices {A : Type} (l : list A) (fuel : nat) :
  forall i, length l - i <= fuel ->
    concat (map (fun j => slice l j (j + batch_size))
              (range_from fuel i (length l) batch_size))
    = skipn i l
    /\ Forall (fun j => 1 <= length (slice l j (j + batch_size)) <= batch_size)
         (range_from fuel i (length l) batch_size).
Proof.
  induction fuel as [|fuel IH]; intros i Hf.
  - cbn. split; [|constructor]. symmetry. apply skipn_all2. lia.
  - destruct (Nat.le_gt_cases (length l) i) as [Hi | Hi].
    + rewrite range_from_nil by exact Hi. cbn. split; [|constructor].
      symmetry. now apply skipn_all2.
    + rewrite range_from_cons by exact Hi. cbn [map concat].
      destruct (IH (i + batch_size)) as [Hc Hall]; [unfold batch_size; lia|].
      rewrite Hc. split; [apply slice_then_rest|].
      constructor; [|exact Hall]. rewrite slice_length. unfold batch_size. lia.
Qed.

(** X10. The chunks are handed to the index in batches that, put end to end,
    are the chunks in order; every batch holds between 1 and 30 chunks, and
    n chunks make (n + 29) / 30 batches. *)
Theorem X10_batches_partition_the_chunks (all_docs : list Document) :
  concat (batches all_docs) = all_docs
  /\ Forall (fun batch => 1 <= length batch <= 30) (batches all_docs)
  /\ length (batches all_docs) = (length all_docs + 29) / 30.
Proof.
  unfold batches, range.
  destruct (range_from_slices all_docs (length all_docs) 0) as [Hc Hall]; [lia|].
  split; [exact Hc|]. split.
  - apply Forall_map. exact Hall.
  - rewrite length_map, range_from_length by lia. now rewrite Nat.sub_0_r.
Qed.

Section WithCollaborators.
Variable PyPDFLoader_load : string -> string -> Exc (list Document).
Variable TextLoader_load : string -> string -> Exc (list Document).
Variable split_documents : list Document -> list Document.
Variable add_documents_raises : list Document -> option string.
Variable time_time : nat -> Q.
Variable strftime : nat -> string.

Local Abbreviation load_file :=
  (Ingestion.load_file PyPDFLoader_load TextLoader_load split_documents).
Local Abbreviation load_files :=
  (Ingestion.load_files PyPDFLoader_load TextLoader_load split_documents).
Local Abbreviation loaded_chunks :=
  (Ingestion.loaded_chunks PyPDFLoader_load TextLoader_load split_documents).
Local Abbreviation file_chunks :=
  (IngestionNotions.file_chunks PyPDFLoader_load TextLoader_load split_documents).
Local Abbreviation embed_batches :=
  (Ingestion.embed_batches add_documents_raises time_time).
Local Abbreviation process_and_add_files :=
  (Ingestion.process_and_add_files PyPDFLoader_load TextLoader_load
     split_documents add_documents_raises time_time strftime).

(** The second loop, batch by batch: how far it got, what it showed. *)
Lemma embed_batches_trace (all_docs : list Document) (start : Q) (fuel : nat) :
  forall i w res w',
    length all_docs - i <= fuel ->
    embed_batches (range_from fuel i (length all_docs) batch_size) all_docs
      (length all_docs) (Nat.min i (length all_docs)) start w = (res, w') ->
    exists k evs,
      ui w' = (ui w ++ evs)%list
      /\ index w' = (index w ++ firstn (k * batch_size) (skipn i all_docs))%list
      /\ processed_counts evs
         = map (fun j => Nat.min (j + batch_size) (length all_docs))
             (firstn k (range_from fuel i (length all_docs) batch_size))
      /\ match res with
         | inr _ => k = length (range_from fuel i (length all_docs) batch_size)
         | inl e =>
             i + k * batch_size < length all_docs
             /\ In (i + k * batch_size)
                  (range_from fuel i (length all_docs) batch_size)
             /\ add_documents_raises
                  (slice all_docs (i + k * batch_size)
                     (i + k * batch_size + batch_size)) = Some e
         end.
Proof.
  set (n := length all_docs).
  induction fuel as [|fuel IH]; intros i w res w' Hf E.
  - cbn in E. injection E as <- <-. exists 0, [].
    cbn. rewrite !app_nil_r. auto.
  - destruct (Nat.le_gt_cases n i) as [Hi | Hi].
    { rewrite range_from_nil in * by exact Hi.
      cbn in E. injection E as <- <-. exists 0, [].
      cbn. rewrite !app_nil_r. auto. }
    rewrite range_from_cons in * by exact Hi.
    cbn [Ingestion.embed_batches] in E.
    destruct (add_documents_raises (slice all_docs i (i + batch_size)))
      as [e|] eqn:Eadd.
    { injection E as <- <-. exists 0, [].
      cbn [Nat.mul firstn map processed_counts flat_map].
      rewrite !app_nil_r, Nat.add_0_r.
      repeat split; try reflexivity; [exact Hi | now left | exact Eadd]. }
    pose proof (slice_length all_docs i) as Hlen. fold n in Hlen.
    set (batch := slice all_docs i (i + batch_size)) in *.
    assert (Hb : batch_size = 30) by reflexivity.
    assert (Hp : Nat.min i n + length batch = Nat.min (i + batch_size) n) by lia.
    rewrite Hp in E.
    set (p := Nat.min (i + batch_size) n) in *.
    rewrite truediv_nonzero in E by (apply Qnat_nonzero; lia).
    cbn [read_clock fst snd] in E.
    rewrite truediv_nonzero in E by (apply Qnat_nonzero; lia).
    apply IH in E; [|lia].
    destruct E as (k & evs & Hu & Hidx & Hcounts & Hres).
    cbn in Hu, Hidx.
    exists (S k). eexists (_ :: evs).
    split; [rewrite Hu, <- app_assoc; reflexivity|].
    split.
    + rewrite Hidx, <- app_assoc. f_equal.
      cbn [Nat.mul]. rewrite firstn_add, skipn_skipn.
      unfold batch, slice.
      replace (i + batch_size - i) with batch_size by lia.
      now rewrite (Nat.add_comm batch_size i).
    + split.
      * cbn [processed_counts flat_map app firstn map].
        fold (processed_counts evs). now rewrite Hcounts.
      * destruct res as [e | q].
        -- destruct Hres as (Hlt & Hin & Hraise).
           replace (i + S k * batch_size) with (i + batch_size + k * batch_size)
             by (cbn [Nat.mul]; lia).
           split; [exact Hlt|]. split; [now right | exact Hraise].
        -- cbn [length]. now f_equal.
Qed.

Lemma embed_all_trace (all_docs : list Document) (start : Q)
    (w : World) (res : Exc nat) (w' : World) :
  embed_batches (range 0 (length all_docs) batch_size) all_docs
    (length all_docs) 0 start w = (res, w') ->
  exists k evs,
    ui w' = (ui w ++ evs)%list
    /\ index w' = (index w ++ firstn (k * batch_size) all_docs)%list
    /\ processed_counts evs
       = map (fun j => Nat.min (j + batch_size) (length all_docs))
           (firstn k (range 0 (length all_docs) batch_size))
    /\ match res with
       | inr _ => k = length (range 0 (length all_docs) batch_size)
       | inl e =>
           k * batch_size < length all_docs
           /\ In (slice all_docs (k * batch_size) (k * batch_size + batch_size))
                (batches all_docs)
           /\ add_documents_raises
                (slice all_docs (k * batch_size) (k * batch_size + batch_size))
              = Some e
       end.
Proof.
  intros E.
  destruct (embed_batches_trace all_docs start (length all_docs) 0 w res w')
    as (k & evs & Hu & Hidx & Hc & Hres); [lia | exact E |].
  exists k, evs. repeat split; try assumption.
  destruct res as [e | q]; [|exact Hres].
  destruct Hres as (Hlt & Hin & Hraise). cbn [Nat.add] in *.
  repeat split; try assumption.
  unfold batches. apply in_map_iff. exists (k * batch_size). auto.
Qed.

(** X11. A run with at least one chunk completes whenever
    [db.add_documents] raises on none of the batches: nothing else in it can
    fail. *)
Theorem X11_run_completes_when_index_accepts (files : list UploadedFile)
    (w : World) :
  loaded_chunks files w <> [] ->
  (forall batch, In batch (batches (loaded_chunks files w)) ->
                 add_documents_raises batch = None) ->
  exists w',
    process_and_add_files files w
    = (inr ("✅ Added " ++ format_nat (length (loaded_chunks files w))
            ++ " chunks to the vector database."), w').
Proof.
  intros Hne Hok.
  destruct (process_cases PyPDFLoader_load TextLoader_load split_documents
              add_documents_raises time_time strftime files w)
    as (w1 & _ & _ & [[He _] | (_ & res & w3 & E & Hp)]); [contradiction|].
  rewrite Hp. destruct (embed_all_trace _ _ _ _ _ E) as (k & evs & _ & _ & _ & Hres).
  destruct res as [e | q]; [|eauto].
  destruct Hres as (_ & Hin & Hraise).
  rewrite (Hok _ Hin) in Hraise. discriminate.
Qed.

(** X12. When [db.add_documents] raises on a batch, the run ends with that
    exception: the index has received the batches before it, that is a
    whole number of batches of 30 chunks short of all the chunks, and the
    metadata record is what it was before the run. *)
Theorem X12_failed_embedding_leaves_partial_index (files : list UploadedFile)
    (w : World) (e : string) (w' : World) :
  process_and_add_files files w = (inl e, w') ->
  exists k,
    k * 30 < length (loaded_chunks files w)
    /\ index w' = (index w ++ firstn (k * 30) (loaded_chunks files w))%list
    /\ add_documents_raises
         (slice (loaded_chunks files w) (k * 30) (k * 30 + 30)) = Some e
    /\ rag_metadata w' = rag_metadata w.
Proof.
  intros Hrun.
  destruct (process_cases PyPDFLoader_load TextLoader_load split_documents
              add_documents_raises time_time strftime files w)
    as (w1 & _ & Hinv & [[_ Hp] | (_ & res & w3 & E & Hp)]);
    rewrite Hp in Hrun; [discriminate|].
  destruct res as [e' | q]; [|discriminate]. injection Hrun as <- <-.
  destruct (embed_all_trace _ _ _ _ _ E) as (k & evs & _ & Hidx & _ & Hlt & _ & Hraise).
  destruct (embed_all_spec _ _ _ _ _ _ _ E) as (Hm & _).
  exists k. cbn in Hidx, Hm.
  rewrite (inv_index _ _ _ _ _ Hinv) in Hidx.
  rewrite (inv_meta _ _ _ _ _ Hinv) in Hm. auto.
Qed.

(** X13. A completed run shows its progress after each batch of 30 chunks:
    the processed counts of its updates are 30, 60, ... capped at the total,
    which is the last one shown. *)
Theorem X13_progress_counts (files : list UploadedFile) (w : World)
    (msg : string) (w' : World) :
  process_and_add_files files w = (inr msg, w') ->
  exists evs,
    ui w' = (ui w ++ evs)%list
    /\ processed_counts evs
       = map (fun j => Nat.min (j + 30) (length (loaded_chunks files w)))
           (range 0 (length (loaded_chunks files w)) 30).
Proof.
  intros Hrun.
  destruct (process_cases PyPDFLoader_load TextLoader_load split_documents
              add_documents_raises time_time strftime files w)
    as (w1 & _ & Hinv & Hcase).
  destruct Hinv as [_ _ _ _ _ (errs & Hu & He)].
  assert (Hquiet : processed_counts errs = []).
  { clear Hu. induction He as [|ev l Hev _ IH]; [reflexivity|].
    cbn. fold (processed_counts l). rewrite IH.
    destruct ev; try reflexivity. discriminate. }
  assert (Happ : forall a b, processed_counts (a ++ b)
                             = (processed_counts a ++ processed_counts b)%list).
  { intros a b. unfold processed_counts. apply flat_map_app. }
  destruct Hcase as [[Hz Hp] | (_ & res & w3 & E & Hp)]; rewrite Hp in Hrun.
  - injection Hrun as <- <-. eexists. cbn [emit ui]. rewrite Hu, <- app_assoc.
    split; [reflexivity|]. rewrite Happ, Hquiet, Hz. reflexivity.
  - destruct res as [e | q]; [discriminate|]. injection Hrun as _ <-.
    destruct (embed_all_trace _ _ _ _ _ E) as (k & evs & Hv & _ & Hc & Hk).
    cbn in Hv. rewrite Hu in Hv.
    exists (errs ++ progress_start :: evs ++ [progress_done])%list.
    cbn [clean_temp_files write_metadata emit ui].
    rewrite Hv, <- !app_assoc. split; [reflexivity|].
    rewrite Happ, Hquiet. cbn [app processed_counts flat_map].
    fold (processed_counts (evs ++ [progress_done])).
    rewrite Happ, Hc, Hk, firstn_all. cbn. now rewrite app_nil_r.
Qed.

(** The first loop, file by file. *)
Lemma load_fold_chunks (files : list UploadedFile) :
  forall docs n w0,
    exists n' w',
      fold_left load_file files (docs, n, w0)
      = ((docs ++ flat_map file_chunks
                    (combine (seq (tmp_seq w0) (length files)) files))%list,
         n', w').
Proof.
  induction files as [|file files IH]; intros docs n w0.
  - exists n, w0. cbn. now rewrite app_nil_r.
  - cbn [fold_left length seq combine flat_map].
    assert (Hstep : exists n1 w1,
               load_file (docs, n, w0) file
               = ((docs ++ file_chunks (tmp_seq w0, file))%list, n1, w1)
               /\ tmp_seq w1 = S (tmp_seq w0)).
    { unfold Ingestion.load_file, IngestionNotions.file_chunks,
        NamedTemporaryFile, tmp_path_for.
      destruct (if String.eqb _ ".pdf" then _ else _) as [e | loaded].
      - do 2 eexists. split; [rewrite app_nil_r; reflexivity | reflexivity].
      - do 2 eexists. split; reflexivity. }
    destruct Hstep as (n1 & w1 & -> & Hs).
    destruct (IH (docs ++ file_chunks (tmp_seq w0, file))%list n1 w1)
      as (n' & w' & ->).
    exists n', w'. now rewrite Hs, <- app_assoc.
Qed.

(** X14. The chunks of a run are, in upload order, the chunks of each file
    that loads; a file whose loader raises adds nothing and does not stop
    the files after it.  The i-th file is loaded from the i-th temporary
    file created. *)
Theorem X14_chunks_in_upload_order (files : list UploadedFile) (w : World) :
  loaded_chunks files w
  = flat_map file_chunks (combine (seq (tmp_seq w) (length files)) files).
Proof.
  unfold Ingestion.loaded_chunks, Ingestion.load_files.
  destruct (load_fold_chunks files [] 0 w) as (n' & w' & ->). reflexivity.
Qed.

(** X15. A completed run empties the temporary directory of every entry that
    [glob] lists and [os.remove] can delete: the files it created and any
    such file that was there before it. *)
Theorem X15_completed_run_sweeps_temp_dir (files : list UploadedFile)
    (w : World) (msg : string) (w' : World) :
  loaded_chunks files w <> [] ->
  process_and_add_files files w = (inr msg, w') ->
  tmpdir w' = filter (fun e => negb (globbed e && removable e)) (tmpdir w).
Proof.
  intros Hne Hrun.
  destruct (process_cases PyPDFLoader_load TextLoader_load split_documents
              add_documents_raises time_time strftime files w)
    as (w1 & _ & Hinv & [[He _] | (_ & res & w3 & E & Hp)]); [contradiction|].
  rewrite Hp in Hrun. destruct res as [e | q]; [discriminate|].
  injection Hrun as _ <-.
  destruct (embed_all_spec _ _ _ _ _ _ _ E) as (_ & Ht & _).
  destruct Hinv as [_ _ _ _ (created & Hc & _ & Hf) _].
  cbn in Ht |- *. rewrite Ht, Hc, filter_app.
  replace (filter _ created) with (@nil TmpEntry); [now rewrite app_nil_r|].
  symmetry. clear Hc. induction Hf as [|e l [Hg Hr] _ IH]; [reflexivity|].
  cbn. now rewrite Hg, Hr.
Qed.

(** X16. A run that does not complete (no chunk to embed, or an exception
    from the index) leaves in the temporary directory one file for each
    uploaded file, after what was there. *)
Theorem X16_incomplete_run_keeps_temp_files (files : list UploadedFile)
    (w : World) (res : Exc string) (w' : World) :
  process_and_add_files files w = (res, w') ->
  loaded_chunks files w = [] \/ (exists e, res = inl e) ->
  exists created,
    tmpdir w' = (tmpdir w ++ created)%list
    /\ length created = length files
    /\ Forall (fun e => globbed e = true /\ removable e = true) created.
Proof.
  intros Hrun Hwhy.
  destruct (process_cases PyPDFLoader_load TextLoader_load split_documents
              add_documents_raises time_time strftime files w)
    as (w1 & _ & Hinv & Hcase).
  destruct Hinv as [_ _ _ _ (created & Hc & Hl & Hf) _].
  exists created. split; [|auto].
  destruct Hcase as [[Hz Hp] | (Hne & r & w3 & E & Hp)]; rewrite Hp in Hrun.
  - injection Hrun as _ <-. exact Hc.
  - destruct Hwhy as [Hz | [e He]]; [contradiction|]. subst res.
    destruct r as [e' | q]; [|discriminate]. injection Hrun as _ <-.
    destruct (embed_all_spec _ _ _ _ _ _ _ E) as (_ & Ht & _).
    cbn in Ht. now rewrite Ht.
Qed.

(** What a completed run leaves in the store. *)
Lemma completed_run_store (files : list UploadedFile) (w : World)
    (msg : string) (w' : World) :
  loaded_chunks files w <> [] ->
  process_and_add_files files w = (inr msg, w') ->
  index w' = (index w ++ loaded_chunks files w)%list
  /\ exists stamp,
      rag_metadata w'
      = Some (mkMetadata (map name files) stamp
                (length (loaded_chunks files w))).
Proof.
  intros Hne Hrun.
  destruct (process_cases PyPDFLoader_load TextLoader_load split_documents
              add_documents_raises time_time strftime files w)
    as (w1 & _ & Hinv & [[He _] | (_ & res & w3 & E & Hp)]); [contradiction|].
  rewrite Hp in Hrun. destruct res as [e | q]; [discriminate|].
  injection Hrun as _ <-.
  destruct (embed_all_spec _ _ _ _ _ _ _ E) as (_ & _ & _ & Hidx).
  cbn in Hidx |- *. rewrite Hidx, (inv_index _ _ _ _ _ Hinv). eauto.
Qed.

(** X17. Two completed runs on the same store, one after the other: the
    index holds the chunks of both, while the metadata record is the one of
    the second run alone, with its files and its chunk count; the files and
    the count of the first run are gone from it. *)
Theorem X17_second_run_overwrites_metadata
    (files1 files2 : list UploadedFile) (w w1 w2 : World) (msg1 msg2 : string) :
  loaded_chunks files1 w <> [] ->
  loaded_chunks files2 w1 <> [] ->
  process_and_add_files files1 w = (inr msg1, w1) ->
  process_and_add_files files2 w1 = (inr msg2, w2) ->
  index w2
  = (index w ++ loaded_chunks files1 w ++ loaded_chunks files2 w1)%list
  /\ exists meta,
      rag_metadata w2 = Some meta
      /\ Ingestion.files meta = map name files2
      /\ total_chunks meta = length (loaded_chunks files2 w1)
      /\ length (index w2)
         = length (index w) + length (loaded_chunks files1 w)
           + total_chunks meta.
Proof.
  intros Hne1 Hne2 Hrun1 Hrun2.
  destruct (completed_run_store files1 w msg1 w1 Hne1 Hrun1) as [Hi1 _].
  destruct (completed_run_store files2 w1 msg2 w2 Hne2 Hrun2)
    as [Hi2 [stamp Hm2]].
  split; [now rewrite Hi2, Hi1, <- app_assoc|].
  eexists. split; [exact Hm2|]. cbn.
  repeat split. rewrite Hi2, Hi1, !length_app. lia.
Qed.

End WithCollaborators.

End IngestionMore.

(* ================================================================= *)
(** ** More on the preparation of the uploads *)

Module DatabaseManagerMore.
Import PyStr PyStrFacts Ingestion DatabaseManager.

Lemma basename_no_separator (p : string) : contains "/" (basename p) = false.
Proof.
  induction p as [|c p IH]; [reflexivity|].
  cbn [basename]. destruct (contains "/" (String c p)) eqn:E; assumption.
Qed.

Section WithZip.
Variable read_zip : string -> Exc (list (string * Exc string)).

(** X18. Uploads none of which is named like a zip archive (the name is
    compared in lower case) are handed to the ingestion as they are, in the
    order of the upload. *)
Theorem X18_plain_uploads_pass_through (uploaded_files : list UploadedFile) :
  Forall (fun u => endswith (lower (name u)) ".zip" = false) uploaded_files ->
  files_for_embedding read_zip uploaded_files = uploaded_files.
Proof.
  unfold files_for_embedding.
  induction 1 as [|u l Hu _ IH]; [reflexivity|].
  cbn [flat_map]. unfold prepare at 1. now rewrite Hu, IH.
Qed.

(** X19. An archive that cannot be opened contributes no file, and the
    uploads before and after it are prepared as if it were not there. *)
Theorem X19_unreadable_archive_skipped
    (before after : list UploadedFile) (archive : UploadedFile) (e : string) :
  endswith (lower (name archive)) ".zip" = true ->
  read_zip (data archive) = inl e ->
  files_for_embedding read_zip (before ++ archive :: after)
  = (files_for_embedding read_zip before
     ++ files_for_embedding read_zip after)%list.
Proof.
  intros Hz Hr. unfold files_for_embedding.
  rewrite flat_map_app. cbn [flat_map]. unfold prepare at 2.
  now rewrite Hz, Hr.
Qed.

End WithZip.

(** X20. When every member of an archive extracts, the files taken from it
    are its members whose names end in .pdf or .txt in any letter case, in
    archive order, each under its base name and with its bytes. *)
Theorem X20_archive_members_filtered_in_order (members : list (string * string)) :
  extract_members (map (fun m => (fst m, inr (snd m))) members)
  = map (fun m => mkUploadedFile (basename (fst m)) (snd m))
      (filter (fun m => eligible (fst m)) members).
Proof.
  induction members as [|[member bytes] rest IH]; [reflexivity|].
  cbn [map filter extract_members fst snd].
  destruct (eligible member); cbn [map fst snd]; now rewrite IH.
Qed.

(** X21. When the extraction of an eligible member fails, the files taken
    from the archive are those of the members before it: the members after
    it are not looked at. *)
Theorem X21_extraction_failure_stops_archive
    (before : list (string * string)) (member e : string)
    (after : list (string * Exc string)) :
  eligible member = true ->
  extract_members
    (map (fun m => (fst m, inr (snd m))) before ++ (member, inl e) :: after)
  = extract_members (map (fun m => (fst m, inr (snd m))) before).
Proof.
  intros He. induction before as [|[m bytes] rest IH].
  - cbn. now rewrite He.
  - cbn [map app extract_members fst snd].
    destruct (eligible m); now rewrite IH.
Qed.

(** X22. A file taken from an archive never has a directory in its name:
    members of different folders with the same file name come out under the
    same name. *)
Theorem X22_archive_names_are_flat (members : list (string * Exc string))
    (f : UploadedFile) :
  In f (extract_members members) -> contains "/" (name f) = false.
Proof.
  intros H.
  destruct (DatabaseManagerFacts.extract_members_eligible _ _ H)
    as (m & b & _ & _ & ->).
  apply basename_no_separator.
Qed.

End DatabaseManagerMore.

(* ================================================================= *)
(** ** The chat page *)

Module ChatbotFacts.
Import PyStr PyStrFacts App AppFacts Backend BackendFacts Chatbot.

Lemma opt_string_eqb_eq (a b : option string) :
  opt_string_eqb a b = true <-> a = b.
Proof.
  destruct a as [x|], b as [y|]; cbn; try (split; [discriminate | congruence]).
  - rewrite String.eqb_eq. split; congruence.
  - tauto.
Qed.

Lemma opt_string_eqb_refl (a : option string) : opt_string_eqb a a = true.
Proof. now apply opt_string_eqb_eq. Qed.

Lemma payload_eqb_refl (p : string * option string * option string) :
  payload_eqb p p = true.
Proof.
  destruct p as [[m r] c]. cbn.
  now rewrite String.eqb_refl, !opt_string_eqb_refl.
Qed.

Lemma sync_rag_state_synced (s : Session) :
  opt_string_eqb (last_rag_state (sync_rag_state s)) (use_rag (sync_rag_state s))
  = true.
Proof.
  unfold sync_rag_state.
  destruct (opt_string_eqb (last_rag_state s) (use_rag s)) eqn:E; cbn;
    [exact E | apply opt_string_eqb_refl].
Qed.

Lemma sync_rag_state_ready (s : Session) : ready (sync_rag_state s) = ready s.
Proof.
  unfold sync_rag_state.
  destruct (negb (opt_string_eqb (last_rag_state s) (use_rag s))); reflexivity.
Qed.

Lemma sync_when_synced (s : Session) :
  opt_string_eqb (last_rag_state s) (use_rag s) = true -> sync_rag_state s = s.
Proof. intros H. unfold sync_rag_state. now rewrite H. Qed.

Lemma turns_extend (t : list (string * option string)) :
  turns t ->
  forall h,
    (turns h -> turns (h ++ t))
    /\ (forall x, turns (x :: h) -> turns (x :: h ++ t)).
Proof.
  intros Ht. induction h as [|y h [IHq IHp]].
  - split; [intros _; exact Ht|].
    intros [r [c|]] H; destruct H.
  - split; [apply IHp|].
    intros [r1 [c1|]] H; [|destruct H].
    destruct y as [r2 c2]. cbn in H |- *.
    destruct H as (H1 & H2 & H3). auto.
Qed.

Lemma turns_roles (h : list (string * option string)) :
  (turns h ->
   map (fun entry : string * option string =>
          ((if String.eqb (fst entry) "user" then "user" else "assistant"),
           snd entry)) h = h)
  /\ (forall x, turns (x :: h) ->
        map (fun entry : string * option string =>
               ((if String.eqb (fst entry) "user" then "user" else "assistant"),
                snd entry)) (x :: h) = x :: h).
Proof.
  induction h as [|y h [IHq IHp]].
  - split; [reflexivity|]. intros [r [c|]] H; destruct H.
  - split; [apply IHp|].
    intros [r1 [c1|]] H; [|destruct H].
    destruct y as [r2 c2]. cbn in H. destruct H as (-> & -> & H3).
    change (map ?f ((?a, ?b) :: (?c, ?d) :: h))
      with (f (a, b) :: f (c, d) :: map f h).
    rewrite (IHq H3). reflexivity.
Qed.

(** X23. Whatever the endpoint answers, with whatever status, the chat page
    has a non-empty text to show and to keep as the assistant entry: the
    text of a success, trimmed, or a fixed fallback when trimming leaves
    nothing; the error message of a failure; a server-error line for a
    status other than 200. *)
Theorem X23_reply_text_never_empty
    (chat_completions_create :
       string -> option string -> string -> list Message -> option Z ->
       option Q -> Exc (option string))
    (generate_content : string -> string -> string -> Exc string)
    (query_rag : string -> string -> Exc string)
    (request : LLMRequest) (status_code : nat) :
  exists text,
    bot_response
      (http status_code
         (query_llm chat_completions_create generate_content query_rag request))
    = Some text
    /\ text <> "".
Proof.
  unfold bot_response. destruct (status_code =? 200)%nat.
  - destruct (query_llm_cases chat_completions_create generate_content
                query_rag request) as [(m & Hm & E) | (_ & p & _ & E)].
    + rewrite E. cbn. eauto.
    + rewrite E.
      destruct (route_cases chat_completions_create generate_content request p
                  (system_for request)) as [(t & Ht & E') | (m & Hm & E')];
        rewrite E'; cbn; [|eauto].
      eexists. split; [reflexivity|].
      destruct (truthy _) eqn:Es; [now apply truthy_true | discriminate].
  - eexists. split; [reflexivity | discriminate].
Qed.

(** X24. A success whose text is empty or made of whitespace only is shown
    as the fallback sentence, not as a blank message. *)
Theorem X24_blank_success_shown_as_fallback (result : LLMResponse) :
  success result = true ->
  blank (response result) ->
  bot_response (http 200 result)
  = Some "🤔 I couldn’t generate a proper answer this time.".
Proof.
  intros Hs Hb. apply strip_blank_iff in Hb.
  unfold bot_response. cbn [Nat.eqb]. now rewrite Hs, Hb.
Qed.

Section WithBackend.
Variable ask_backend : Payload -> Reply.

Local Abbreviation submit := (Chatbot.submit ask_backend).
Local Abbreviation run := (Chatbot.run ask_backend).

Lemma submit_cases (s : Session) (m : string) :
  submit s m = s
  \/ (chat_history (submit s m)
      = (chat_history s
         ++ [("user", Some m);
             ("assistant",
              bot_response
                (ask_backend
                   (build_payload
                      (mkSession (llm_choice s) (api_key s) (use_rag s)
                         (active_db s)
                         (chat_history s ++ [("user", Some m)])%list
                         (system_message s) (temperature s) (max_tokens s)
                         (last_rag_state s)
                         (Some (m, use_rag s, llm_choice s)))
                      m)))])%list
      /\ last_payload (submit s m) = Some (m, use_rag s, llm_choice s)
      /\ llm_choice (submit s m) = llm_choice s
      /\ api_key (submit s m) = api_key s
      /\ use_rag (submit s m) = use_rag s
      /\ active_db (submit s m) = active_db s
      /\ last_rag_state (submit s m) = last_rag_state s).
Proof.
  unfold Chatbot.submit.
  destruct (match last_payload s with Some old => _ | None => false end);
    [now left | right].
  cbn. rewrite <- app_assoc. repeat split.
Qed.

(** X25. Submitting the same message twice in a row, with the same model and
    RAG choice, changes the session once: the second run of the page leaves
    everything as the first run left it, and posts nothing. *)
Theorem X25_repeated_message_ignored (s : Session) (m : string) :
  run (run s false (Some m)) false (Some m) = run s false (Some m).
Proof.
  unfold Chatbot.run. destruct (ready s) eqn:R; cbn [negb]; [|now rewrite R].
  pose proof (sync_rag_state_ready s) as R1. rewrite R in R1.
  pose proof (sync_rag_state_synced s) as S1.
  set (s1 := sync_rag_state s) in *.
  destruct (truthy m) eqn:Tm.
  - destruct (submit_cases s1 m) as [E | (_ & Hp & Hl & Hk & Hu & Hd & Hr)].
    + rewrite E, R1. cbn [negb]. rewrite (sync_when_synced s1 S1). exact E.
    + set (s2 := submit s1 m) in *.
      assert (R2 : ready s2 = true).
      { unfold ready, llm_ready, rag_ready, rag_enabled, has_db in *.
        now rewrite Hl, Hk, Hu, Hd. }
      rewrite R2. cbn [negb].
      rewrite (sync_when_synced s2) by (now rewrite Hr, Hu).
      unfold Chatbot.submit at 1. rewrite Hp, Hu, Hl, payload_eqb_refl.
      reflexivity.
  - rewrite R1. cbn [negb]. now rewrite (sync_when_synced s1 S1).
Qed.

(** X26. Every run of the page keeps the history a sequence of turns: a user
    message, then the assistant entry that answered it. *)
Theorem X26_history_stays_in_turns (s : Session) (clear : bool)
    (user_message : option string) :
  turns (chat_history s) ->
  turns (chat_history (run s clear user_message)).
Proof.
  intros Ht. unfold Chatbot.run.
  destruct (ready s); cbn [negb]; [|exact Ht].
  assert (Ht1 : turns (chat_history (sync_rag_state s))).
  { unfold sync_rag_state.
    destruct (negb (opt_string_eqb (last_rag_state s) (use_rag s)));
      [exact I | exact Ht]. }
  destruct clear; [exact I|].
  destruct user_message as [m|]; [|exact Ht1].
  destruct (truthy m); [|exact Ht1].
  destruct (submit_cases (sync_rag_state s) m) as [-> | (-> & _)]; [exact Ht1|].
  apply turns_extend; [|exact Ht1]. cbn. auto.
Qed.

(** X27. A message that is not ignored as a repetition is posted with the
    history as it was before the message, entry for entry, and with the
    message as prompt; the history then grows by the message and by the text
    shown for the reply. *)
Theorem X27_message_posted_with_prior_history (s : Session) (m : string) :
  turns (chat_history s) ->
  submit s m <> s ->
  exists payload,
    chat_history (submit s m)
    = (chat_history s
       ++ [("user", Some m);
           ("assistant", bot_response (ask_backend payload))])%list
    /\ p_chat_history payload = chat_history s
    /\ p_prompt payload = m
    /\ p_model_name payload = llm_choice s
    /\ p_db_path payload = active_db s.
Proof.
  intros Ht Hne.
  destruct (submit_cases s m) as [E | (Hh & _)]; [contradiction|].
  eexists. split; [exact Hh|].
  cbn [build_payload p_chat_history p_prompt p_model_name p_db_path
         chat_history llm_choice active_db].
  rewrite removelast_last. split; [|auto].
  now apply turns_roles.
Qed.

End WithBackend.

(** X28. The page posts only requests with a chosen model, a key that is not
    blank, a non-empty prompt and, when RAG is on, a store path: two
    backends that agree on such requests give the same run of the page. *)
Theorem X28_only_postable_requests_sent (ask1 ask2 : Payload -> Reply)
    (s : Session) (clear : bool) (user_message : option string) :
  (forall payload, postable payload -> ask1 payload = ask2 payload) ->
  Chatbot.run ask1 s clear user_message = Chatbot.run ask2 s clear user_message.
Proof.
  intros Hagree. unfold Chatbot.run.
  destruct (ready s) eqn:R; cbn [negb]; [|reflexivity].
  rewrite <- sync_rag_state_ready in R.
  set (s1 := sync_rag_state s) in *.
  destruct clear; [reflexivity|].
  destruct user_message as [m|]; [|reflexivity].
  destruct (truthy m) eqn:Tm; [|reflexivity].
  unfold Chatbot.submit.
  destruct (match last_payload s1 with Some old => _ | None => false end);
    [reflexivity|].
  rewrite Hagree; [reflexivity|].
  unfold ready, llm_ready, rag_enabled, has_db in R.
  apply andb_true_iff in R as [R Hdb]. apply andb_true_iff in R as [R _].
  apply andb_true_iff in R as [Hm Hk].
  unfold postable.
  cbn [build_payload p_model_name p_api_key p_prompt p_use_rag p_db_path
         llm_choice api_key active_db use_rag rag_enabled].
  repeat split.
  - exact Hm.
  - now apply truthy_true.
  - now apply truthy_true.
  - intros Hr. unfold rag_enabled in Hr. cbn [use_rag] in Hr.
    rewrite Hr in Hdb. cbn in Hdb. now apply negb_true_iff, negb_false_iff in Hdb.
Qed.

End ChatbotFacts.

(* ================================================================= *)
(** ** Worked instances of the further properties *)

Module MoreExamples.
Import PyStr PyStrFacts Retrieval App AppFacts Backend BackendFacts.

Lemma X1_blank_inputs_witness :
  query_llm Demo.completion_empty Demo.generate_empty Demo.rag_fixed
    Demo2.blank_key_request
  = mkLLMResponse "" false (Some "❌ API key is required.")
  /\ query_llm Demo.completion_empty Demo.generate_empty Demo.rag_fixed
       Demo2.blank_prompt_request
     = mkLLMResponse "" false (Some "❌ Prompt cannot be empty.")
  /\ query_llm Demo.completion_empty Demo.generate_empty Demo.rag_fixed
       Demo2.nbsp_key_request
     = mkLLMResponse "" false (Some "❌ API key is required.").
Proof.
  split; [|split].
  - apply (proj1 (X1_blank_key_or_prompt_rejected Demo.completion_empty
                    Demo.generate_empty Demo.rag_fixed Demo2.blank_key_request)).
    apply strip_blank_iff. reflexivity.
  - apply (proj2 (X1_blank_key_or_prompt_rejected Demo.completion_empty
                    Demo.generate_empty Demo.rag_fixed Demo2.blank_prompt_request)).
    + intros H. apply strip_blank_iff in H. discriminate.
    + apply strip_blank_iff. reflexivity.
  - apply (proj1 (X1_blank_key_or_prompt_rejected Demo.completion_empty
                    Demo.generate_empty Demo.rag_fixed Demo2.nbsp_key_request)).
    apply (blank_cons 160 ""); [|apply blank_nil].
    unfold whitespace_code_points. do 11 right. left. reflexivity.
Defined.

Lemma X2_unknown_model_witness :
  query_llm Demo.completion_empty Demo.generate_empty Demo.rag_fixed
    (Demo.ask "deepseek" false None)
  = mkLLMResponse "" false
      (Some ("❌ Unknown model: " ++ model_name (Demo.ask "deepseek" false None))).
Proof.
  refine (X2_unknown_model_rejected Demo.completion_empty Demo.generate_empty
            Demo.rag_fixed (Demo.ask "deepseek" false None) "What is RAG?"
            _ _ _ _ _).
  - split; discriminate.
  - reflexivity.
  - discriminate.
  - discriminate.
  - discriminate.
Defined.

Lemma X3_retrieval_failure_witness :
  endpoint Demo.completion_empty Demo.generate_empty Demo2.search_raises
    (Demo.ask "ChatGPT" true (Some "chroma_dbs/docs"))
  = mkLLMResponse "" false
      (Some ("⚠️ RAG Error: Could not retrieve context. Details: "
             ++ "no such collection")).
Proof.
  refine (X3_retrieval_failure_reported Demo.completion_empty
            Demo.generate_empty Demo2.search_raises
            (Demo.ask "ChatGPT" true (Some "chroma_dbs/docs"))
            "chroma_dbs/docs" "no such collection" _ _ _ _ _).
  - split; discriminate.
  - reflexivity.
  - reflexivity.
  - discriminate.
  - reflexivity.
Defined.

Lemma X4_two_results_witness :
  adapter_receives Demo.completion_echo Demo.generate_echo
    (imported_query_rag Demo.search_two)
    (Demo.ask "ChatGPT" true (Some "chroma_dbs/docs"))
    ("Use the following context to answer:" ++ LF ++ LF
     ++ blank_line_joined
          (map page_content
             [mkDocument "first" "a.txt"; mkDocument "second" "b.txt"])
     ++ LF ++ LF ++ "Question: "
     ++ strip (prompt (Demo.ask "ChatGPT" true (Some "chroma_dbs/docs")))).
Proof.
  refine (X4_retrieved_context_reaches_adapter Demo.completion_echo
            Demo.generate_echo Demo.search_two
            (Demo.ask "ChatGPT" true (Some "chroma_dbs/docs"))
            "chroma_dbs/docs"
            [mkDocument "first" "a.txt"; mkDocument "second" "b.txt"]
            _ _ _ _ _).
  - split; discriminate.
  - reflexivity.
  - reflexivity.
  - discriminate.
  - reflexivity.
Defined.

(** What a provider that echoes its prompt is sent on that request. *)
Example echoed_rag_prompt :
  response
    (endpoint Demo.completion_echo Demo.generate_echo Demo.search_two
       (Demo.ask "ChatGPT" true (Some "chroma_dbs/docs")))
  = "Use the following context to answer:" ++ LF ++ LF ++ "first" ++ LF
    ++ LF ++ "second" ++ LF ++ LF ++ "Question: What is RAG?".
Proof. vm_compute. reflexivity. Qed.

Lemma X5_provider_exception_witness :
  query_llm Demo2.completion_raises Demo2.generate_raises Demo.rag_fixed
    (Demo.ask "ChatGPT" false None)
  = mkLLMResponse "" false
      (Some (parse_api_error "OpenAI" "Error code: 401 - Unauthorized")).
Proof.
  refine (proj2 (proj2 (X5_provider_exception_classified Demo2.completion_raises
                          Demo2.generate_raises Demo.rag_fixed
                          (Demo.ask "ChatGPT" false None) "What is RAG?" _ _))
            "Error code: 401 - Unauthorized" _ _).
  - split; discriminate.
  - reflexivity.
  - reflexivity.
  - reflexivity.
Defined.

Lemma X6_provider_text_witness :
  query_llm Demo2.completion_hello Demo2.generate_hello Demo.rag_fixed
    (Demo.ask "DeepSeek" false None)
  = mkLLMResponse "Hello!" true None.
Proof.
  refine (proj1 (X6_provider_text_returned_verbatim Demo2.completion_hello
                   Demo2.generate_hello Demo.rag_fixed
                   (Demo.ask "DeepSeek" false None) "What is RAG?" "Hello!"
                   _ _ _) _ _).
  - split; discriminate.
  - reflexivity.
  - discriminate.
  - reflexivity.
  - reflexivity.
Defined.

Lemma X8_no_retrieval_witness :
  query_llm Demo2.completion_hello Demo2.generate_hello Demo.rag_fixed
    (Demo.ask "ChatGPT" true None)
  = query_llm Demo2.completion_hello Demo2.generate_hello Demo2.rag_raises
      (Demo.ask "ChatGPT" true None).
Proof.
  apply (X8_no_retrieval_without_rag Demo2.completion_hello
           Demo2.generate_hello Demo.rag_fixed Demo2.rag_raises
           (Demo.ask "ChatGPT" true None)).
  right. reflexivity.
Defined.

Lemma X9_gemini_parameters_witness :
  query_llm Demo2.completion_hello Demo2.generate_hello Demo.rag_fixed
    (with_generation (Demo.ask "Gemini" false None) (Some (2 # 1)%Q)
       (Some 4000%Z))
  = query_llm Demo2.completion_hello Demo2.generate_hello Demo.rag_fixed
      (Demo.ask "Gemini" false None).
Proof.
  apply (X9_gemini_ignores_generation_parameters Demo2.completion_hello
           Demo2.generate_hello Demo.rag_fixed (Demo.ask "Gemini" false None)).
  reflexivity.
Defined.

End MoreExamples.

(* ================================================================= *)
(** ** Worked runs for the further properties *)

Module MoreRuns.
Import PyStr PyStrFacts Retrieval Ingestion IngestionNotions IngestionMore.
Import DatabaseManager DatabaseManagerMore.

Lemma X11_run_completes_witness :
  exists w',
    Demo.ingest Demo.good_files Demo.world0
    = (inr ("✅ Added "
            ++ format_nat
                 (length (loaded_chunks Demo.pdf_load Demo.text_load
                            Chunker.split_documents Demo.good_files Demo.world0))
            ++ " chunks to the vector database."), w').
Proof.
  refine (X11_run_completes_when_index_accepts Demo.pdf_load Demo.text_load
            Chunker.split_documents Demo.add_ok Demo.clock Demo.stamp
            Demo.good_files Demo.world0 _ _).
  - vm_compute. discriminate.
  - intros batch _. reflexivity.
Defined.

Lemma X12_failed_embedding_witness :
  exists k,
    k * 30 < length (loaded_chunks Demo.pdf_load Demo.text_load
                       Chunker.split_documents Demo.good_files Demo.world0)
    /\ index (snd (Demo.ingest_failing Demo.good_files Demo.world0))
       = (index Demo.world0
          ++ firstn (k * 30)
               (loaded_chunks Demo.pdf_load Demo.text_load
                  Chunker.split_documents Demo.good_files Demo.world0))%list
    /\ Demo.add_fails
         (slice (loaded_chunks Demo.pdf_load Demo.text_load
                   Chunker.split_documents Demo.good_files Demo.world0)
            (k * 30) (k * 30 + 30))
       = Some "embedding backend unavailable"
    /\ rag_metadata (snd (Demo.ingest_failing Demo.good_files Demo.world0))
       = rag_metadata Demo.world0.
Proof.
  refine (X12_failed_embedding_leaves_partial_index Demo.pdf_load Demo.text_load
            Chunker.split_documents Demo.add_fails Demo.clock Demo.stamp
            Demo.good_files Demo.world0 "embedding backend unavailable"
            (snd (Demo.ingest_failing Demo.good_files Demo.world0)) _).
  vm_compute. reflexivity.
Defined.

Lemma X13_progress_counts_witness :
  exists evs,
    ui (snd (Demo.ingest Demo.mixed_files Demo.world0))
    = (ui Demo.world0 ++ evs)%list
    /\ processed_counts evs
       = map (fun j =>
                Nat.min (j + 30)
                  (length (loaded_chunks Demo.pdf_load Demo.text_load
                             Chunker.split_documents Demo.mixed_files
                             Demo.world0)))
           (range 0
              (length (loaded_chunks Demo.pdf_load Demo.text_load
                         Chunker.split_documents Demo.mixed_files Demo.world0))
              30).
Proof.
  refine (X13_progress_counts Demo.pdf_load Demo.text_load
            Chunker.split_documents Demo.add_ok Demo.clock Demo.stamp
            Demo.mixed_files Demo.world0
            "✅ Added 1 chunks to the vector database."
            (snd (Demo.ingest Demo.mixed_files Demo.world0)) _).
  vm_compute. reflexivity.
Defined.

Lemma X15_sweep_witness :
  tmpdir (snd (Demo.ingest Demo.mixed_files Demo.world0))
  = filter (fun e => negb (globbed e && removable e)) (tmpdir Demo.world0).
Proof.
  refine (X15_completed_run_sweeps_temp_dir Demo.pdf_load Demo.text_load
            Chunker.split_documents Demo.add_ok Demo.clock Demo.stamp
            Demo.mixed_files Demo.world0
            "✅ Added 1 chunks to the vector database."
            (snd (Demo.ingest Demo.mixed_files Demo.world0)) _ _).
  - vm_compute. discriminate.
  - vm_compute. reflexivity.
Defined.

Lemma X16_temp_files_kept_witness :
  exists created,
    tmpdir (snd (Demo.ingest Demo.empty_files Demo.world0))
    = (tmpdir Demo.world0 ++ created)%list
    /\ length created = length Demo.empty_files
    /\ Forall (fun e => globbed e = true /\ removable e = true) created.
Proof.
  refine (X16_incomplete_run_keeps_temp_files Demo.pdf_load Demo.text_load
            Chunker.split_documents Demo.add_ok Demo.clock Demo.stamp
            Demo.empty_files Demo.world0
            (fst (Demo.ingest Demo.empty_files Demo.world0))
            (snd (Demo.ingest Demo.empty_files Demo.world0)) _ _).
  - reflexivity.
  - left. reflexivity.
Defined.

Lemma X17_two_runs_witness :
  index (snd (Demo.ingest Demo.mixed_files
                (snd (Demo.ingest Demo.good_files Demo.world0))))
  = (index Demo.world0
     ++ loaded_chunks Demo.pdf_load Demo.text_load Chunker.split_documents
          Demo.good_files Demo.world0
     ++ loaded_chunks Demo.pdf_load Demo.text_load Chunker.split_documents
          Demo.mixed_files (snd (Demo.ingest Demo.good_files Demo.world0)))%list
  /\ exists meta,
      rag_metadata (snd (Demo.ingest Demo.mixed_files
                           (snd (Demo.ingest Demo.good_files Demo.world0))))
      = Some meta
      /\ files meta = map name Demo.mixed_files
      /\ total_chunks meta
         = length (loaded_chunks Demo.pdf_load Demo.text_load
                     Chunker.split_documents Demo.mixed_files
                     (snd (Demo.ingest Demo.good_files Demo.world0)))
      /\ length (index (snd (Demo.ingest Demo.mixed_files
                               (snd (Demo.ingest Demo.good_files Demo.world0)))))
         = length (index Demo.world0)
           + length (loaded_chunks Demo.pdf_load Demo.text_load
                       Chunker.split_documents Demo.good_files Demo.world0)
           + total_chunks meta.
Proof.
  refine (X17_second_run_overwrites_metadata Demo.pdf_load Demo.text_load
            Chunker.split_documents Demo.add_ok Demo.clock Demo.stamp
            Demo.good_files Demo.mixed_files Demo.world0
            (snd (Demo.ingest Demo.good_files Demo.world0))
            (snd (Demo.ingest Demo.mixed_files
                    (snd (Demo.ingest Demo.good_files Demo.world0))))
            "✅ Added 1 chunks to the vector database."
            "✅ Added 1 chunks to the vector database." _ _ _ _).
  - vm_compute. discriminate.
  - vm_compute. discriminate.
  - vm_compute. reflexivity.
  - vm_compute. reflexivity.
Defined.

Lemma X18_plain_uploads_witness :
  files_for_embedding Demo2.zip_unreadable Demo.mixed_files = Demo.mixed_files.
Proof.
  apply (X18_plain_uploads_pass_through Demo2.zip_unreadable Demo.mixed_files).
  repeat constructor.
Defined.

Lemma X19_unreadable_archive_witness :
  files_for_embedding Demo2.zip_unreadable
    (Demo.good_files ++ Demo2.archive_upload :: Demo.empty_files)
  = (files_for_embedding Demo2.zip_unreadable Demo.good_files
     ++ files_for_embedding Demo2.zip_unreadable Demo.empty_files)%list.
Proof.
  refine (X19_unreadable_archive_skipped Demo2.zip_unreadable Demo.good_files
            Demo.empty_files Demo2.archive_upload "File is not a zip file" _ _).
  - reflexivity.
  - reflexivity.
Defined.

Lemma X21_extraction_failure_witness :
  extract_members
    (map (fun m => (fst m, inr (snd m))) [("a/notes.TXT", "A")]
     ++ ("b.pdf", inl "bad CRC") :: [("c.txt", inr "C")])
  = extract_members (map (fun m => (fst m, inr (snd m))) [("a/notes.TXT", "A")]).
Proof.
  apply (X21_extraction_failure_stops_archive [("a/notes.TXT", "A")] "b.pdf"
           "bad CRC" [("c.txt", inr "C")]).
  reflexivity.
Defined.

Lemma X22_flat_names_witness :
  contains "/" (name (mkUploadedFile "notes.TXT" "A")) = false.
Proof.
  apply (X22_archive_names_are_flat
           [("a/notes.TXT", inr "A"); ("b/notes.TXT", inr "B")]
           (mkUploadedFile "notes.TXT" "A")).
  left. reflexivity.
Defined.

(** Two members of different folders with one file name: two files under
    the same name. *)
Example same_name_from_two_folders :
  map name
    (extract_members [("a/notes.TXT", inr "A"); ("img.png", inr "P");
                      ("b/notes.TXT", inr "B")])
  = ["notes.TXT"; "notes.TXT"].
Proof. reflexivity. Qed.

End MoreRuns.

(* ================================================================= *)
(** ** Worked runs of the chat page *)

Module ChatExamples.
Import PyStr PyStrFacts App Backend BackendFacts Chatbot ChatbotFacts.

Lemma X24_blank_success_witness :
  bot_response (http 200 Demo2.blank_success)
  = Some "🤔 I couldn’t generate a proper answer this time."
  /\ bot_response (http 200 Demo2.wide_blank_success)
     = Some "🤔 I couldn’t generate a proper answer this time.".
Proof.
  split.
  - apply (X24_blank_success_shown_as_fallback Demo2.blank_success).
    + reflexivity.
    + apply strip_blank_iff. reflexivity.
  - apply (X24_blank_success_shown_as_fallback Demo2.wide_blank_success).
    + reflexivity.
    + apply (blank_cons 160 (utf8 12288)).
      * unfold whitespace_code_points. do 11 right. left. reflexivity.
      * apply (blank_cons 12288 ""); [|apply blank_nil].
        unfold whitespace_code_points. do 28 right. left. reflexivity.
Defined.

Lemma X26_turns_witness :
  turns (chat_history (run Demo2.backend_ok Demo2.session0 false (Some "hello"))).
Proof.
  apply (X26_history_stays_in_turns Demo2.backend_ok Demo2.session0 false
           (Some "hello")).
  exact I.
Defined.

Lemma X27_posted_history_witness :
  exists payload,
    chat_history (submit Demo2.backend_ok Demo2.session0 "hello")
    = (chat_history Demo2.session0
       ++ [("user", Some "hello");
           ("assistant", bot_response (Demo2.backend_ok payload))])%list
    /\ p_chat_history payload = chat_history Demo2.session0
    /\ p_prompt payload = "hello"
    /\ p_model_name payload = llm_choice Demo2.session0
    /\ p_db_path payload = active_db Demo2.session0.
Proof.
  apply (X27_message_posted_with_prior_history Demo2.backend_ok Demo2.session0
           "hello").
  - exact I.
  - intros H. apply (f_equal chat_history) in H. discriminate.
Defined.

Lemma X28_postable_witness :
  run Demo2.backend_ok Demo2.session0 false (Some "hello")
  = run Demo2.backend_picky Demo2.session0 false (Some "hello").
Proof.
  apply (X28_only_postable_requests_sent Demo2.backend_ok Demo2.backend_picky
           Demo2.session0 false (Some "hello")).
  intros payload (_ & _ & Hp & _). unfold Demo2.backend_picky.
  apply String.eqb_neq in Hp. now rewrite Hp.
Defined.

(** A first message on a fresh session: shown trimmed, kept as a turn. *)
Example first_turn :
  chat_history (run Demo2.backend_ok Demo2.session0 false (Some "hello"))
  = [("user", Some "hello"); ("assistant", Some "Hi there.")].
Proof. reflexivity. Qed.

End ChatExamples.
